(** * IMPPAT scraper: a shallow embedding of [IMPPAT.py]

    The program is a sequential pipeline: it fetches a listing page for a
    plant, resolves every listed compound to a PubChem CID, a SMILES string
    and a 3D structure file, and writes a formatted spreadsheet.

    Modelling conventions.
    - A Python [str] (and [bytes]) is a [string]; its characters are code
      points below 256.
    - The remote sites are a function [http_get] from a URL to a response;
      it is a parameter of the development, as is the HTML parser of
      BeautifulSoup.  Every request and every [time.sleep] is recorded in
      the trace of the world.
    - The file system is a finite map from paths to files; a file is either
      raw bytes or a workbook with one worksheet.  Writes always succeed
      (the folders are created by [main] before they are used), and a
      request always returns a response: the exceptions of the network and
      of the file system are not modelled.
    - A worksheet is the dictionary of its cells, as in openpyxl.  A string
      cell is read back from the file with its line ends normalised (CR LF
      and CR become LF), and as an empty cell when it is empty.  The rows
      and the path are taken to be ones that pandas and openpyxl accept:
      their exceptions (a path without a known extension, a control
      character in a cell) are not modelled.
    - Console output ([print]) and the prompts of [main] are not modelled. *)

From Stdlib Require Import ZArith Ascii String List Lia.
From stdpp Require Import base list strings gmap fin_maps fin_sets.

Local Open Scope string_scope.
Local Open Scope list_scope.
Local Open Scope nat_scope.
Set Warnings "-register-all".

(** ** Python strings *)

Module PyStr.

(** [str.isspace] on a single code point below 256. *)
Definition is_space (a : ascii) : bool :=
  let n := nat_of_ascii a in
  ((9 <=? n)%nat && (n <=? 13)%nat)
  || ((28 <=? n)%nat && (n <=? 32)%nat)
  || (n =? 133)%nat || (n =? 160)%nat.

(** [\d] of the [re] module on a code point below 256. *)
Definition is_digit (a : ascii) : bool :=
  let n := nat_of_ascii a in (48 <=? n)%nat && (n <=? 57)%nat.

Fixpoint lstrip (s : string) : string :=
  match s with
  | EmptyString => EmptyString
  | String a s' => if is_space a then lstrip s' else s
  end.

Fixpoint rstrip (s : string) : string :=
  match s with
  | EmptyString => EmptyString
  | String a s' =>
      match rstrip s' with
      | EmptyString => if is_space a then EmptyString else String a EmptyString
      | r => String a r
      end
  end.

(** [s.strip()] *)
Definition strip (s : string) : string := rstrip (lstrip s).

(** [s.replace(' ', '%20')] *)
Fixpoint replace_space (s : string) : string :=
  match s with
  | EmptyString => EmptyString
  | String a s' =>
      if Ascii.eqb a " "%char then "%20" +:+ replace_space s'
      else String a (replace_space s')
  end.

Fixpoint all_chars (p : ascii → bool) (s : string) : bool :=
  match s with
  | EmptyString => true
  | String a s' => p a && all_chars p s'
  end.

Definition head_is (p : ascii → bool) (s : string) : bool :=
  match s with
  | EmptyString => false
  | String a _ => p a
  end.

Fixpoint last_is (p : ascii → bool) (s : string) : bool :=
  match s with
  | EmptyString => false
  | String a EmptyString => p a
  | String _ s' => last_is p s'
  end.

(** The longest prefix of digits, as [\d+] consumes it. *)
Fixpoint take_digits (s : string) : string :=
  match s with
  | EmptyString => EmptyString
  | String a s' => if is_digit a then String a (take_digits s') else EmptyString
  end.

Fixpoint strip_prefix (p s : string) : option string :=
  match p, s with
  | EmptyString, _ => Some s
  | String a p', String b s' =>
      if Ascii.eqb a b then strip_prefix p' s' else None
  | String _ _, EmptyString => None
  end.

(** An attempt to match [CID:(\d+)] at the start of [s]; the result is
    group 1. *)
Definition match_cid_here (s : string) : option string :=
  match strip_prefix "CID:" s with
  | Some rest =>
      match take_digits rest with
      | EmptyString => None
      | ds => Some ds
      end
  | None => None
  end.

(** [re.search(r'CID:(\d+)', s)] followed by [.group(1)]: the leftmost
    position at which the pattern matches. *)
Fixpoint re_search_cid (s : string) : option string :=
  match match_cid_here s with
  | Some ds => Some ds
  | None =>
      match s with
      | EmptyString => None
      | String _ s' => re_search_cid s'
      end
  end.

End PyStr.

(** ** BeautifulSoup documents *)

Module Soup.

Inductive node : Type :=
| NavigableString (s : string)
| Tag (name : string) (contents : list node).

(** [Tag.descendants]: the nodes below [n] in document order. *)
Fixpoint descendants (n : node) : list node :=
  match n with
  | NavigableString _ => []
  | Tag _ cs =>
      (fix walk (l : list node) : list node :=
         match l with
         | [] => []
         | c :: l' => (c :: descendants c ++ walk l')%list
         end) cs
  end.

Definition is_tag (nm : string) (n : node) : bool :=
  match n with
  | Tag nm' _ => String.eqb nm' nm
  | NavigableString _ => false
  end.

Definition is_string (lbl : string) (n : node) : bool :=
  match n with
  | NavigableString s => String.eqb s lbl
  | Tag _ _ => false
  end.

(** [n.find(nm)] *)
Definition find (nm : string) (n : node) : option node :=
  List.find (is_tag nm) (descendants n).

(** [n.find_all(nm)] *)
Definition find_all (nm : string) (n : node) : list node :=
  List.filter (is_tag nm) (descendants n).

(** [soup.find(string=lbl)].  The string that is found is represented by
    its position: the result is the list of the elements that follow it in
    the document, which is what [find_next] iterates over. *)
Fixpoint find_string_in (lbl : string) (l : list node) : option (list node) :=
  match l with
  | [] => None
  | n :: l' => if is_string lbl n then Some l' else find_string_in lbl l'
  end.

Definition find_string (lbl : string) (soup : node) : option (list node) :=
  find_string_in lbl (descendants soup).

(** [pos.find_next(nm)] *)
Definition find_next (nm : string) (next_elements : list node) : option node :=
  List.find (is_tag nm) next_elements.

Definition string_of (n : node) : string :=
  match n with
  | NavigableString s => s
  | Tag _ _ => ""
  end.

(** [n.text] *)
Definition text (n : node) : string :=
  match n with
  | NavigableString s => s
  | Tag _ _ => foldr (λ c acc, string_of c +:+ acc) "" (descendants n)
  end.

End Soup.

(** ** The world: remote sites, file system, trace *)

Inductive value : Type :=
| VNone
| VInt (n : Z)
| VStr (s : string).

#[global] Instance value_eq_dec : EqDecision value.
Proof. solve_decision. Defined.

(** The truth value of a Python object in a condition. *)
Definition truthy (v : value) : bool :=
  match v with
  | VNone => false
  | VInt n => negb (n =? 0)%Z
  | VStr s => negb (String.eqb s "")
  end.

(** What [requests.get] returns: [status_code], [content] (bytes) and
    [text] (the decoded body). *)
Record Response : Type := mkResponse {
  status_code : Z;
  content : string;
  text : string
}.

(** A cell of an openpyxl worksheet. *)
Record Cell : Type := mkCell {
  cell_value : value;
  cell_fill : option string;
  cell_hyperlink : option value;
  cell_style : string
}.

(** Cells are addressed by (row, column), both counted from 1. *)
Abbreviation Worksheet := (gmap (nat * nat) Cell).

Inductive File : Type :=
| Bytes (b : string)
| Xlsx (ws : Worksheet).

Inductive event : Type :=
| Get (url : string)
| Sleep (seconds : nat).

Record World : Type := mkWorld {
  files : gmap string File;
  trace : list event
}.

(** A state monad over the world. *)
Definition M (A : Type) : Type := World → A * World.

Definition ret {A} (a : A) : M A := λ w, (a, w).

Definition bind {A B} (m : M A) (k : A → M B) : M B :=
  λ w, let '(a, w') := m w in k a w'.

Notation "'let*' x ':=' m 'in' k" := (bind m (λ x, k))
  (at level 10, x name, m at level 100, k at level 200).

Definition emit (e : event) : M unit :=
  λ w, (tt, mkWorld (files w) (trace w ++ [e])%list).

(** [time.sleep(n)] *)
Definition sleep (n : nat) : M unit := emit (Sleep n).

(** [with open(path, 'wb') as file: file.write(b)] *)
Definition write_bytes (path b : string) : M unit :=
  λ w, (tt, mkWorld (<[path := Bytes b]> (files w)) (trace w)).

(** [os.path.join(a, b)] of [posixpath]. *)
Definition os_path_join (a b : string) : string :=
  if PyStr.head_is (Ascii.eqb "/"%char) b then b
  else if String.eqb a "" || PyStr.last_is (Ascii.eqb "/"%char) a then a +:+ b
  else a +:+ "/" +:+ b.

(** The rows that [search_plant] collects: the Python list
    [[identifier, phytochemical_name, cid, smiles, structure_status,
    hyperlink]]. *)
Record CompoundRow : Type := mkRow {
  identifier : string;
  phytochemical_name : string;
  cid : option string;
  smiles : string;
  structure_status : string;
  hyperlink : string
}.

Definition detailed_page_base : string :=
  "https://cb.imsc.res.in/imppat/phytochemical-detailedpage/".

Definition plant_page_base : string :=
  "https://cb.imsc.res.in/imppat/phytochemical/".

Definition pubchem_url (cid : string) : string :=
  "https://pubchem.ncbi.nlm.nih.gov/rest/pug/compound/cid/" +:+ cid
  +:+ "/property/CanonicalSMILES/TXT".

Definition structure_url (identifier : string) : string :=
  "https://cb.imsc.res.in/imppat/images/3D/MOL/" +:+ identifier +:+ "_3D.mol".

Definition cid_label : string := "External chemical identifiers:".

Section Scraper.

(** The remote sites and BeautifulSoup's [html.parser]. *)
Variable http_get : string → Response.
Variable html_parser : string → list Soup.node.

(** [requests.get(url)] *)
Definition requests_get (url : string) : M Response :=
  let* _ := emit (Get url) in ret (http_get url).

(** [BeautifulSoup(content, 'html.parser')] *)
Definition BeautifulSoup (markup : string) : Soup.node :=
  Soup.Tag "[document]" (html_parser markup).

Definition extract_cid (identifier : string) : M (option string) :=
  let detailed_page_url := detailed_page_base +:+ identifier in
  let* response := requests_get detailed_page_url in
  let* _ := sleep 2 in
  if negb (status_code response =? 200)%Z then ret None
  else
    let soup := BeautifulSoup (content response) in
    match Soup.find_string cid_label soup with
    | Some external_identifiers_section =>
        match Soup.find_next "a" external_identifiers_section with
        | Some cid_tag =>
            let cid_text := PyStr.strip (Soup.text cid_tag) in
            match PyStr.re_search_cid cid_text with
            | Some cid => ret (Some cid)
            | None => ret None
            end
        | None => ret None
        end
    | None => ret None
    end.

Definition get_smiles_from_pubchem (cid : string) : M string :=
  let* response := requests_get (pubchem_url cid) in
  let* _ := sleep 2 in
  if negb (status_code response =? 200)%Z then ret "N/A"
  else ret (PyStr.strip (text response)).

Definition download_structure (identifier structure_folder : string)
  : M string :=
  let* response := requests_get (structure_url identifier) in
  if (status_code response =? 200)%Z then
    let* _ := write_bytes
                (os_path_join structure_folder (identifier +:+ "_3D.mol"))
                (content response) in
    ret "Downloaded"
  else ret "Not found".

Definition plant_page_url (plant_name : string) : string :=
  plant_page_base +:+ PyStr.replace_space plant_name.

(** The body of the loop over the table rows: [plant_info] is the list
    built so far. *)
Definition process_row (structure_folder : string) (row : Soup.node)
    (plant_info : list CompoundRow) : M (list CompoundRow) :=
  let cols := Soup.find_all "td" row in
  if (3 <? length cols)%nat then
    let identifier :=
      PyStr.strip (Soup.text (nth 2 cols (Soup.NavigableString ""))) in
    let phytochemical_name :=
      PyStr.strip (Soup.text (nth 3 cols (Soup.NavigableString ""))) in
    let* cid := extract_cid identifier in
    match cid with
    | Some c =>
        (* [if cid:] holds for a string that is not empty *)
        if truthy (VStr c) then
          let* smiles := get_smiles_from_pubchem c in
          let* structure_status :=
            download_structure identifier structure_folder in
          let hyperlink :=
            if String.eqb structure_status "Not found"
            then detailed_page_base +:+ identifier else "" in
          ret (plant_info ++
               [mkRow identifier phytochemical_name (Some c) smiles
                      structure_status hyperlink])%list
        else ret plant_info
    | None => ret plant_info
    end
  else ret plant_info.

Fixpoint for_rows (structure_folder : string) (rows : list Soup.node)
    (plant_info : list CompoundRow) : M (list CompoundRow) :=
  match rows with
  | [] => ret plant_info
  | row :: rest =>
      let* plant_info' := process_row structure_folder row plant_info in
      for_rows structure_folder rest plant_info'
  end.

Definition search_plant (plant_name structure_folder : string)
  : M (list CompoundRow) :=
  let* response := requests_get (plant_page_url plant_name) in
  let* _ := sleep 2 in
  if negb (status_code response =? 200)%Z then ret []
  else
    let soup := BeautifulSoup (content response) in
    match Soup.find "table" soup with
    | Some table =>
        for_rows structure_folder (drop 1 (Soup.find_all "tr" table)) []
    | None => ret []
    end.

End Scraper.

(** ** The report writer *)

Module Report.

(** The list a row is in Python. *)
Definition row_values (r : CompoundRow) : list value :=
  [VStr (identifier r); VStr (phytochemical_name r);
   from_option VStr VNone (cid r); VStr (smiles r);
   VStr (structure_status r); VStr (hyperlink r)].

(** [[[i+1] + row for i, row in enumerate(data)]] *)
Definition data_with_slno (data : list CompoundRow) : list (list value) :=
  imap (λ i row, VInt (Z.of_nat i + 1) :: row_values row) data.

Definition columns : list string :=
  ["Sl No"; "Phytochemical Identifier"; "Phytochemical Name"; "CID";
   "Canonical SMILES"; "Structure"; "Hyperlink"].

(** [pd.DataFrame(rows, columns=cols)] for rows as wide as [cols]. *)
Record DataFrame : Type := mkDataFrame {
  df_columns : list string;
  df_rows : list (list value)
}.

Definition empty_cell : Cell := mkCell VNone None None "Normal".

Definition CR : ascii := "013"%char.
Definition LF : ascii := "010"%char.

(** A string as it is read back from the XML of the workbook: the line ends
    CR LF and CR have become LF. *)
Fixpoint read_back (s : string) : string :=
  match s with
  | EmptyString => EmptyString
  | String a s' =>
      if Ascii.eqb a CR then
        String LF
          match s' with
          | EmptyString => EmptyString
          | String b s'' => if Ascii.eqb b LF then read_back s'' else read_back s'
          end
      else String a (read_back s')
  end.

(** The value that is read back from a cell written with [v]: a string
    comes back with its line ends normalised, and an empty string as an
    empty cell. *)
Definition stored_value (v : value) : value :=
  match v with
  | VStr s =>
      match read_back s with
      | EmptyString => VNone
      | s' => VStr s'
      end
  | _ => v
  end.

Definition new_cell (v : value) : Cell :=
  mkCell (stored_value v) None None "Normal".

(** Writes [vals] in row [r] from column [c] on. *)
Fixpoint write_row (r c : nat) (vals : list value) (ws : Worksheet)
  : Worksheet :=
  match vals with
  | [] => ws
  | v :: vs => write_row r (S c) vs (<[(r, c) := new_cell v]> ws)
  end.

Fixpoint write_rows (r : nat) (rows : list (list value)) (ws : Worksheet)
  : Worksheet :=
  match rows with
  | [] => ws
  | vs :: rest => write_rows (S r) rest (write_row r 1 vs ws)
  end.

(** The sheet of [df.to_excel(path, index=False)]: the header in row 1,
    the rows of the frame from row 2 on.  (For a path and for cell values
    that pandas and openpyxl accept; their exceptions are not modelled.) *)
Definition sheet_of (df : DataFrame) : Worksheet :=
  write_rows 2 (df_rows df) (write_row 1 1 (VStr <$> df_columns df) ∅).

Definition to_excel (df : DataFrame) (file_path : string) : M unit :=
  λ w, (tt, mkWorld (<[file_path := Xlsx (sheet_of df)]> (files w)) (trace w)).

(** [load_workbook(path).active]; [None] stands for the exception raised
    when there is no workbook at [path]. *)
Definition load_workbook (file_path : string) : M (option Worksheet) :=
  λ w, (match files w !! file_path with
        | Some (Xlsx ws) => Some ws
        | _ => None
        end, w).

(** [wb.save(path)] *)
Definition save (ws : Worksheet) (file_path : string) : M unit :=
  λ w, (tt, mkWorld (<[file_path := Xlsx ws]> (files w)) (trace w)).

(** [ws.max_row] *)
Definition max_row (ws : Worksheet) : nat :=
  match (map_to_list ws).*1.*1 with
  | [] => 1
  | rows => max_list rows
  end.

(** [ws.cell(r, c)]: the cell, created empty when it does not exist. *)
Definition get_cell (ws : Worksheet) (rc : nat * nat) : Cell :=
  default empty_cell (ws !! rc).

Definition set_value (c : Cell) (v : value) : Cell :=
  mkCell v (cell_fill c) (cell_hyperlink c) (cell_style c).

Definition set_fill (c : Cell) (f : string) : Cell :=
  mkCell (cell_value c) (Some f) (cell_hyperlink c) (cell_style c).

(** [ws[f'{col}{r}'] = v] *)
Definition assign (ws : Worksheet) (rc : nat * nat) (v : value) : Worksheet :=
  <[rc := set_value (get_cell ws rc) v]> ws.

Definition value_is_str (v : value) (s : string) : bool :=
  match v with
  | VStr s' => String.eqb s' s
  | _ => false
  end.

Definition fill_downloaded : string := "92D050".
Definition fill_not_found : string := "FF3300".

(** The rows that [ws.iter_rows(min_row=2, max_row=ws.max_row, ...)]
    visits. *)
Definition iter_rows (ws : Worksheet) : list nat := seq 2 (max_row ws - 1).

(** The state of the colouring loop: the sheet, [downloaded_count] and
    [not_found_count]. *)
Definition fill_step (st : Worksheet * Z * Z) (r : nat) : Worksheet * Z * Z :=
  let '(ws, downloaded_count, not_found_count) := st in
  let cell := get_cell ws (r, 6) in
  if value_is_str (cell_value cell) "Downloaded" then
    (<[(r, 6) := set_fill cell fill_downloaded]> ws,
     (downloaded_count + 1)%Z, not_found_count)
  else
    (<[(r, 6) := set_fill cell fill_not_found]> ws,
     downloaded_count, (not_found_count + 1)%Z).

Definition link_step (ws : Worksheet) (r : nat) : Worksheet :=
  let cell := get_cell ws (r, 7) in
  if truthy (cell_value cell) then
    <[(r, 7) := mkCell (VStr "Link") (cell_fill cell)
                       (Some (cell_value cell)) "Hyperlink"]> ws
  else <[(r, 7) := cell]> ws.

End Report.

(** [None] stands for the exception of a failed [load_workbook]. *)
Definition save_to_excel (data : list CompoundRow) (file_path : string)
  : M (option unit) :=
  let data_with_slno := Report.data_with_slno data in
  let df := Report.mkDataFrame Report.columns data_with_slno in
  let* _ := Report.to_excel df file_path in
  let* wb := Report.load_workbook file_path in
  match wb with
  | None => ret None
  | Some ws =>
      let '(ws, downloaded_count, not_found_count) :=
        foldl Report.fill_step (ws, 0%Z, 0%Z) (Report.iter_rows ws) in
      let ws := foldl Report.link_step ws (Report.iter_rows ws) in
      let total_compounds := (downloaded_count + not_found_count)%Z in
      let summary_row := Report.max_row ws + 2 in
      let ws := Report.assign ws (summary_row, 1)
                  (VStr "No of compounds downloaded:") in
      let ws := Report.assign ws (summary_row, 2) (VInt downloaded_count) in
      let ws := Report.assign ws (summary_row + 1, 1)
                  (VStr "No of missing compounds:") in
      let ws := Report.assign ws (summary_row + 1, 2) (VInt not_found_count) in
      let ws := Report.assign ws (summary_row + 2, 1)
                  (VStr "Total no of compounds:") in
      let ws := Report.assign ws (summary_row + 2, 2) (VInt total_compounds) in
      let* _ := Report.save ws file_path in
      ret (Some tt)
  end.

(** The worksheet found at [path], if there is one. *)
Definition sheet_at (w : World) (path : string) : option Worksheet :=
  match files w !! path with
  | Some (Xlsx ws) => Some ws
  | _ => None
  end.

Definition empty_world : World := mkWorld ∅ [].


(** ** Vocabulary of the statements *)

(** A match of [CID:(\d+)] starts in [s] right after the prefix [pre]. *)
Definition cid_match_at (s pre : string) : Prop :=
  ∃ d rest, PyStr.is_digit d = true ∧ s = pre +:+ "CID:" +:+ String d rest.

(** The listing: the rows of the first table after the header row, and the
    two columns that are read from a row. *)
Definition listing_rows (soup : Soup.node) : list Soup.node :=
  match Soup.find "table" soup with
  | Some table => drop 1 (Soup.find_all "tr" table)
  | None => []
  end.

Definition well_formed (row : Soup.node) : bool :=
  (3 <? length (Soup.find_all "td" row))%nat.

Definition well_formed_rows (soup : Soup.node) : list Soup.node :=
  List.filter well_formed (listing_rows soup).

Definition row_identifier (row : Soup.node) : string :=
  PyStr.strip (Soup.text (nth 2 (Soup.find_all "td" row) (Soup.NavigableString ""))).

Definition row_name (row : Soup.node) : string :=
  PyStr.strip (Soup.text (nth 3 (Soup.find_all "td" row) (Soup.NavigableString ""))).

Section Outcomes.
Variable http_get : string → Response.
Variable html_parser : string → list Soup.node.

(** What the three lookups answer; the answers do not depend on the world
    they are run in (see the [_run] lemmas). *)
Definition cid_of (identifier : string) : option string :=
  (extract_cid http_get html_parser identifier empty_world).1.

Definition smiles_of (cid : string) : string :=
  (get_smiles_from_pubchem http_get cid empty_world).1.

Definition status_of (identifier : string) : string :=
  (download_structure http_get identifier "" empty_world).1.

(** The row that a well-formed listing row contributes, if any. *)
Definition compound_of (row : Soup.node) : option CompoundRow :=
  let identifier := row_identifier row in
  match cid_of identifier with
  | Some c =>
      Some (mkRow identifier (row_name row) (Some c) (smiles_of c)
              (status_of identifier)
              (if String.eqb (status_of identifier) "Not found"
               then detailed_page_base +:+ identifier else ""))
  | None => None
  end.

Definition cid_found (row : Soup.node) : bool :=
  bool_decide (is_Some (cid_of (row_identifier row))).

End Outcomes.

(** The cells of the report, stated over the rows it is written from. *)
Module ReportSpec.
Import Report.

Definition is_downloaded (row : CompoundRow) : bool :=
  String.eqb (structure_status row) "Downloaded".

Definition downloaded_total (data : list CompoundRow) : Z :=
  Z.of_nat (length (List.filter is_downloaded data)).

Definition missing_total (data : list CompoundRow) : Z :=
  Z.of_nat (length (List.filter (λ row, negb (is_downloaded row)) data)).

Definition header_cell (c : nat) : option Cell :=
  match c with
  | 0 => None
  | S j => (λ name, new_cell (VStr name)) <$> columns !! j
  end.

(** The cell in column [c] of the data row written from the [i]-th
    element [row] of the input. *)
Definition data_cell (i : nat) (row : CompoundRow) (c : nat) : option Cell :=
  match c with
  | 1 => Some (new_cell (VInt (Z.of_nat i + 1)))
  | 2 => Some (new_cell (VStr (identifier row)))
  | 3 => Some (new_cell (VStr (phytochemical_name row)))
  | 4 => Some (new_cell (from_option VStr VNone (cid row)))
  | 5 => Some (new_cell (VStr (smiles row)))
  | 6 => Some (mkCell (stored_value (VStr (structure_status row)))
                 (Some (if is_downloaded row then fill_downloaded
                        else fill_not_found))
                 None "Normal")
  | 7 => Some (if String.eqb (hyperlink row) "" then empty_cell
               else mkCell (VStr "Link") None
                      (Some (stored_value (VStr (hyperlink row))))
                      "Hyperlink")
  | _ => None
  end.

Definition plain (v : value) : Cell := mkCell v None None "Normal".

(** The cell in column [c] of the [k]-th summary row. *)
Definition summary_cell (data : list CompoundRow) (k c : nat) : option Cell :=
  match k, c with
  | 0, 1 => Some (plain (VStr "No of compounds downloaded:"))
  | 0, 2 => Some (plain (VInt (downloaded_total data)))
  | 1, 1 => Some (plain (VStr "No of missing compounds:"))
  | 1, 2 => Some (plain (VInt (missing_total data)))
  | 2, 1 => Some (plain (VStr "Total no of compounds:"))
  | 2, 2 => Some (plain (VInt (downloaded_total data + missing_total data)))
  | _, _ => None
  end.

(** The header in row 1, the data rows from row 2 on, the summary from the
    second row after the last data row on. *)
Definition report_cell (data : list CompoundRow) (r c : nat) : option Cell :=
  let n := length data in
  if decide (r = 1) then header_cell c
  else if decide (2 ≤ r ≤ n + 1) then
    data !! (r - 2) ≫= λ row, data_cell (r - 2) row c
  else if decide (n + 3 ≤ r ≤ n + 5) then summary_cell data (r - (n + 3)) c
  else None.

(** The cell that [to_excel] writes for a data row. *)
Definition raw_cell (i : nat) (row : CompoundRow) (c : nat) : option Cell :=
  match c with
  | 0 => None
  | S j => new_cell <$> (VInt (Z.of_nat i + 1) :: row_values row) !! j
  end.

(** The sheet while it is decorated: the first [k6] data rows are coloured
    and the first [k7] data rows have had their link column visited. *)
Definition stage_cell (data : list CompoundRow) (k6 k7 r c : nat)
  : option Cell :=
  if decide (r = 1) then header_cell c
  else if decide (2 ≤ r) then
    data !! (r - 2) ≫= λ row,
      if decide ((c = 6 ∧ r < k6 + 2) ∨ (c = 7 ∧ r < k7 + 2))
      then data_cell (r - 2) row c
      else raw_cell (r - 2) row c
  else None.

(** The rows of a sheet that hold a value. *)
Definition used_rows (ws : Worksheet) : gset nat :=
  set_map (λ k : nat * nat, k.1)
    (dom (filter (λ kv, cell_value kv.2 ≠ VNone) ws)).

End ReportSpec.

(** URL encoding as the specification words it ("urlencoded plant name"),
    after RFC 3986: the unreserved characters (letters, digits, [-], [.],
    [_] and [~]) stand for themselves, every other character is written as
    [%] and the two hexadecimal digits of its code.  It is the yardstick the
    URL of [search_plant] is compared with, not a part of the program. *)
Module UrlSpec.

Definition in_range (lo hi : nat) (a : ascii) : bool :=
  let n := nat_of_ascii a in (lo <=? n) && (n <=? hi).

Definition unreserved (a : ascii) : bool :=
  in_range 65 90 a || in_range 97 122 a || in_range 48 57 a
  || Ascii.eqb a "-" || Ascii.eqb a "." || Ascii.eqb a "_" || Ascii.eqb a "~".

Definition hex_digit (n : nat) : ascii :=
  nth n (list_ascii_of_string "0123456789ABCDEF") "0"%char.

Definition percent_encode (a : ascii) : string :=
  let n := nat_of_ascii a in
  String "%" (String (hex_digit (n / 16)) (String (hex_digit (n mod 16)) "")).

Fixpoint urlencode_spec (s : string) : string :=
  match s with
  | EmptyString => EmptyString
  | String a s' =>
      (if unreserved a then String a "" else percent_encode a)
      +:+ urlencode_spec s'
  end.

(** The characters that [str.replace(' ', '%20')] encodes as the
    specification asks: the unreserved ones, which it keeps, and the space. *)
Definition plain_name (s : string) : bool :=
  PyStr.all_chars (λ a, unreserved a || Ascii.eqb a " ") s.

End UrlSpec.

(** ** A small world to run the program in *)

Module Example.
Import Soup.

Definition td (s : string) : node := Tag "td" [NavigableString s].

Definition listing : list node :=
  [Tag "html"
     [Tag "table"
        [Tag "tr" [Tag "th" [NavigableString "S.No"]];
         Tag "tr" [td "Ocimum sanctum"; td "leaf"; td " IMPHY000001 "; td "Eugenol"];
         Tag "tr" [td "Ocimum sanctum"; td "leaf"; td "IMPHY000002"; td "Carvacrol"];
         Tag "tr" [td "no data"];
         Tag "tr" [td "Ocimum sanctum"; td "seed"; td "IMPHY000003"; td "Linalool"]]]].

Definition detail (anchor : string) : list node :=
  [Tag "div"
     [Tag "b" [NavigableString cid_label];
      NavigableString " ";
      Tag "a" [NavigableString anchor]]].

Definition html_parser (markup : string) : list node :=
  if String.eqb markup "listing" then listing
  else if String.eqb markup "detail-1" then detail " CID:12345 "
  else if String.eqb markup "detail-3" then detail "CID:678"
  else [].

Definition http_get (url : string) : Response :=
  if String.eqb url (plant_page_base +:+ "Ocimum%20sanctum")
  then mkResponse 200 "listing" "listing"
  else if String.eqb url (detailed_page_base +:+ "IMPHY000001")
  then mkResponse 200 "detail-1" "detail-1"
  else if String.eqb url (detailed_page_base +:+ "IMPHY000003")
  then mkResponse 200 "detail-3" "detail-3"
  else if String.eqb url (pubchem_url "12345")
  then mkResponse 200 "  COc1cc(CC=C)ccc1O " "  COc1cc(CC=C)ccc1O "
  else if String.eqb url (structure_url "IMPHY000001")
  then mkResponse 200 "MOLFILE" "MOLFILE"
  else mkResponse 404 "" "".

Definition row1 : CompoundRow :=
  mkRow "IMPHY000001" "Eugenol" (Some "12345") "COc1cc(CC=C)ccc1O"
        "Downloaded" "".

Definition row2 : CompoundRow :=
  mkRow "IMPHY000003" "Linalool" (Some "678") "N/A" "Not found"
        (detailed_page_base +:+ "IMPHY000003").

Definition row3 : CompoundRow :=
  mkRow "IMPHY000004" "Estragole" (Some "8815") "COc1ccc(CC=C)cc1"
        "Downloaded" "".

Definition rows : list CompoundRow := [row1; row2; row3].

End Example.

(** ** The effects of the listing loop *)

(** The file a structure is saved in. *)
Definition structure_path (structure_folder identifier : string) : string :=
  os_path_join structure_folder (identifier +:+ "_3D.mol").

Section Effects.
Variable http_get : string → Response.
Variable html_parser : string → list Soup.node.

(** The requests and delays that one well-formed listing row costs. *)
Definition row_events (row : Soup.node) : list event :=
  let identifier := row_identifier row in
  [Get (detailed_page_base +:+ identifier); Sleep 2]
  ++ match cid_of http_get html_parser identifier with
     | Some c => [Get (pubchem_url c); Sleep 2; Get (structure_url identifier)]
     | None => []
     end.

(** A listing row whose structure file is saved. *)
Definition downloads (row : Soup.node) : bool :=
  bool_decide (is_Some (cid_of http_get html_parser (row_identifier row)))
  && (status_code (http_get (structure_url (row_identifier row))) =? 200)%Z.

(** The file system after one well-formed listing row. *)
Definition row_files (structure_folder : string) (fs : gmap string File)
    (row : Soup.node) : gmap string File :=
  if downloads row then
    <[structure_path structure_folder (row_identifier row)
      := Bytes (content (http_get (structure_url (row_identifier row))))]> fs
  else fs.

End Effects.

(** ** The entry point *)

Module Main.

(** [str.isalnum] on a single code point below 256: the ASCII letters and
    digits, the letters of Latin-1, the superscript digits and the vulgar
    fractions. *)
Definition is_alnum (a : ascii) : bool :=
  let n := nat_of_ascii a in
  let between lo hi := (lo <=? n) && (n <=? hi) in
  between 48 57 || between 65 90 || between 97 122
  || (n =? 170) || (n =? 178) || (n =? 179) || (n =? 181) || (n =? 185)
  || (n =? 186) || between 188 190 || between 192 214 || between 216 246
  || between 248 255.

(** [c.isalnum() or c in (' ', '_')] *)
Definition kept (c : ascii) : bool :=
  is_alnum c || Ascii.eqb c " " || Ascii.eqb c "_".

(** [''.join(c for c in s if p(c))] *)
Fixpoint join_if (p : ascii → bool) (s : string) : string :=
  match s with
  | EmptyString => EmptyString
  | String c s' => if p c then String c (join_if p s') else join_if p s'
  end.

Definition safe_name (plant_name : string) : string :=
  PyStr.rstrip (join_if kept plant_name).

(** The console and the directories: the lines that [input] has still to
    return, and the paths for which [os.path.isdir] holds. *)
Record Env : Type := mkEnv {
  stdin : list string;
  dirs : gset string
}.

(** How [main] ends: with one of its two messages, or with the [EOFError]
    of an [input] that has nothing to read, or with the exception of
    [save_to_excel]. *)
Inductive outcome : Type :=
| Saved (file_path : string)
| NoData
| EOFError
| SaveError.

(** The [while True] loop: the first line that names a directory, and the
    lines after it. *)
Fixpoint ask_save_location (existing : gset string) (lines : list string)
  : option (string * list string) :=
  match lines with
  | [] => None
  | save_location :: rest =>
      if bool_decide (save_location ∈ existing) then Some (save_location, rest)
      else ask_save_location existing rest
  end.

(** [os.makedirs(path, exist_ok=True)], for a path whose parent exists. *)
Definition makedirs (path : string) (existing : gset string) : gset string :=
  {[path]} ∪ existing.

Section Program.
Variable http_get : string → Response.
Variable html_parser : string → list Soup.node.

Definition main (env : Env) (w : World) : outcome * Env * World :=
  match ask_save_location (dirs env) (stdin env) with
  | None => (EOFError, mkEnv [] (dirs env), w)
  | Some (save_location, lines) =>
      match lines with
      | [] => (EOFError, mkEnv [] (dirs env), w)
      | plant_name :: lines' =>
          let safe_plant_name := safe_name plant_name in
          let plant_folder := os_path_join save_location safe_plant_name in
          let existing := makedirs plant_folder (dirs env) in
          let structure_folder := os_path_join plant_folder "3d_structure" in
          let existing := makedirs structure_folder existing in
          let file_name := safe_plant_name +:+ ".xlsx" in
          let file_path := os_path_join plant_folder file_name in
          let '(plant_info, w1) :=
            search_plant http_get html_parser plant_name structure_folder w in
          let env' := mkEnv lines' existing in
          match plant_info with
          | [] => (NoData, env', w1)
          | _ :: _ =>
              let '(saved, w2) := save_to_excel plant_info file_path w1 in
              match saved with
              | Some _ => (Saved file_path, env', w2)
              | None => (SaveError, env', w2)
              end
          end
      end
  end.

End Program.

End Main.

(** A site whose listing has a table with nothing but its first row. *)
Module Example2.
Import Soup.

Definition html_parser (markup : string) : list node :=
  if String.eqb markup "first-row-only" then
    [Tag "table"
       [Tag "tr" [Example.td "1"; Example.td "leaf"; Example.td "IMPHY000009";
                  Example.td "Thymol"]]]
  else [].

Definition http_get (url : string) : Response :=
  mkResponse 200 "first-row-only" "first-row-only".

End Example2.

(** A site whose detail pages show more than one CID, or a longer one, and
    which serves a structure for every identifier. *)
Module Example3.

Definition html_parser (markup : string) : list Soup.node :=
  if String.eqb markup "twice" then Example.detail "CID:9 CID:12345"
  else if String.eqb markup "longer" then Example.detail "CID:123456"
  else [].

Definition http_get (url : string) : Response :=
  if String.eqb url (detailed_page_base +:+ "IMPHY000006")
  then mkResponse 200 "longer" "longer"
  else mkResponse 200 "twice" "twice".

End Example3.

(** * Properties *)

(** ** Strings *)

Module PyStrFacts.
Import PyStr.

Lemma app_cons (a : ascii) (s t : string) :
  String a s +:+ t = String a (s +:+ t).
Proof. reflexivity. Qed.

Lemma app_nil (t : string) : "" +:+ t = t.
Proof. reflexivity. Qed.

Ltac unfold_app := rewrite ?app_cons, ?app_nil in *.


Lemma app_length' (s t : string) :
  String.length (s +:+ t) = (String.length s + String.length t)%nat.
Proof. induction s as [|a s IH]; unfold_app; simpl; [done | by rewrite IH]. Qed.

Lemma lstrip_spec (s : string) :
  ∃ l, s = l +:+ lstrip s ∧ all_chars is_space l = true
       ∧ head_is is_space (lstrip s) = false.
Proof.
  induction s as [|a s (l & Hs & Hl & Hh)]; simpl.
  - by exists "".
  - destruct (is_space a) eqn:Ha.
    + exists (String a l). unfold_app. simpl. rewrite Ha, Hl. by rewrite <- Hs.
    + exists "". simpl. by rewrite Ha.
Qed.

Lemma rstrip_spec (s : string) :
  ∃ t, s = rstrip s +:+ t ∧ all_chars is_space t = true
       ∧ last_is is_space (rstrip s) = false.
Proof.
  induction s as [|a s (t & Hs & Ht & Hl)]; simpl.
  - by exists "".
  - destruct (rstrip s) as [|b r] eqn:Hr.
    + destruct (is_space a) eqn:Ha.
      * exists (String a t). unfold_app. simpl. rewrite Ha, Ht. by rewrite <- Hs.
      * exists t. unfold_app. simpl. rewrite Ha. by subst.
    + exists t. split; [|split]; try done.
      unfold_app. by rewrite <- Hs.
Qed.

Lemma rstrip_head (s : string) :
  head_is is_space s = false → head_is is_space (rstrip s) = false.
Proof.
  destruct s as [|a s]; simpl; [done|]. intros Ha.
  destruct (rstrip s); [by rewrite Ha | done].
Qed.

(** [strip] removes exactly a run of blanks on either side. *)
Lemma strip_spec (s : string) :
  ∃ l t, s = l +:+ strip s +:+ t
         ∧ all_chars is_space l = true ∧ all_chars is_space t = true
         ∧ head_is is_space (strip s) = false
         ∧ last_is is_space (strip s) = false.
Proof.
  destruct (lstrip_spec s) as (l & Hs & Hl & Hh).
  destruct (rstrip_spec (lstrip s)) as (t & Hs' & Ht & Hlast).
  exists l, t. unfold strip. repeat split; try done.
  - by rewrite <- Hs'.
  - by apply rstrip_head.
Qed.

Lemma take_digits_app (ds post : string) :
  all_chars is_digit ds = true → head_is is_digit post = false →
  take_digits (ds +:+ post) = ds.
Proof.
  induction ds as [|a ds IH]; unfold_app; simpl; intros Hd Hp.
  - destruct post as [|b post]; simpl in *; [done | by rewrite Hp].
  - apply andb_prop in Hd as [Ha Hd]. rewrite Ha. by rewrite IH.
Qed.

Lemma strip_prefix_Some (p s rest : string) :
  strip_prefix p s = Some rest → s = p +:+ rest.
Proof.
  revert s. induction p as [|a p IH]; intros s; simpl.
  - by intros [= ->].
  - destruct s as [|b s]; [done|].
    destruct (Ascii.eqb a b) eqn:Hab; [|done].
    apply Ascii.eqb_eq in Hab as ->. intros H. unfold_app. by rewrite (IH _ H).
Qed.

Lemma strip_prefix_app (p rest : string) :
  strip_prefix p (p +:+ rest) = Some rest.
Proof.
  induction p as [|a p IH]; unfold_app; simpl; [done|].
  by rewrite Ascii.eqb_refl.
Qed.

Lemma match_cid_here_Some (s ds : string) :
  match_cid_here s = Some ds →
  ∃ d rest, is_digit d = true ∧ s = "CID:" +:+ String d rest.
Proof.
  unfold match_cid_here.
  destruct (strip_prefix "CID:" s) as [rest|] eqn:Hp; [|done].
  apply strip_prefix_Some in Hp.
  destruct rest as [|d rest]; simpl; [done|].
  destruct (is_digit d) eqn:Hd; [|done]. intros _. by exists d, rest.
Qed.

Lemma match_cid_here_app (ds post : string) :
  ds ≠ "" → all_chars is_digit ds = true → head_is is_digit post = false →
  match_cid_here ("CID:" +:+ ds +:+ post) = Some ds.
Proof.
  intros Hne Hd Hp. unfold match_cid_here.
  rewrite strip_prefix_app, take_digits_app by done.
  by destruct ds.
Qed.

Lemma re_search_cid_unfold (s : string) :
  re_search_cid s =
  match match_cid_here s with
  | Some ds => Some ds
  | None => match s with
            | EmptyString => None
            | String _ s' => re_search_cid s'
            end
  end.
Proof. by destruct s. Qed.

Lemma re_search_cid_None (s : string) :
  (∀ pre, ¬ cid_match_at s pre) → re_search_cid s = None.
Proof.
  induction s as [|a s IH]; intros Hno; rewrite re_search_cid_unfold.
  - done.
  - destruct (match_cid_here (String a s)) as [ds|] eqn:Hm.
    + apply match_cid_here_Some in Hm as (d & rest & Hd & Hs).
      destruct (Hno ""). by exists d, rest.
    + apply IH. intros pre (d & rest & Hd & Hs).
      apply (Hno (String a pre)). exists d, rest. unfold_app. by rewrite <- Hs.
Qed.

Lemma re_search_cid_Some (pre ds post : string) :
  ds ≠ "" → all_chars is_digit ds = true → head_is is_digit post = false →
  (∀ pre', cid_match_at (pre +:+ "CID:" +:+ ds +:+ post) pre' →
           (String.length pre ≤ String.length pre')%nat) →
  re_search_cid (pre +:+ "CID:" +:+ ds +:+ post) = Some ds.
Proof.
  intros Hne Hd Hp. induction pre as [|a pre IH]; intros Hleft;
    rewrite re_search_cid_unfold.
  - rewrite app_nil. by rewrite match_cid_here_app.
  - rewrite app_cons in *.
    destruct (match_cid_here (String a (pre +:+ "CID:" +:+ ds +:+ post)))
      as [x|] eqn:Hm.
    + apply match_cid_here_Some in Hm as (d & rest & Hdg & Hs).
      specialize (Hleft ""). simpl in Hleft.
      assert (S (String.length pre) ≤ 0)%nat; [|lia].
      apply Hleft. by exists d, rest.
    + apply IH. intros pre' (d & rest & Hdg & Hs).
      specialize (Hleft (String a pre')). simpl in Hleft.
      assert (S (String.length pre) ≤ S (String.length pre'))%nat; [|lia].
      apply Hleft. exists d, rest. split; [done|]. rewrite app_cons. by rewrite Hs.
Qed.

End PyStrFacts.

(** ** Documents *)

Module SoupFacts.
Import Soup.

Lemma find_string_in_None (lbl : string) (l : list node) :
  (∀ n, n ∈ l → n ≠ NavigableString lbl) → find_string_in lbl l = None.
Proof.
  induction l as [|n l IH]; intros Hno; simpl; [done|].
  destruct (is_string lbl n) eqn:Hn.
  - destruct n as [s|]; [|done]. simpl in Hn.
    apply String.eqb_eq in Hn as ->. destruct (Hno (NavigableString lbl)); [left | done].
  - apply IH. intros m Hm. apply Hno. by right.
Qed.

Lemma find_next_None (nm : string) (l : list node) :
  Forall (λ n, is_tag nm n = false) l → find_next nm l = None.
Proof.
  unfold find_next. induction 1 as [|n l Hn _ IH]; simpl; [done|].
  by rewrite Hn.
Qed.

End SoupFacts.

(** ** The three lookups *)

Section Lookups.
Variable http_get : string → Response.
Variable html_parser : string → list Soup.node.

Lemma extract_cid_run (identifier : string) (w : World) :
  extract_cid http_get html_parser identifier w =
  (let response := http_get (detailed_page_base +:+ identifier) in
   if negb (status_code response =? 200)%Z then None
   else
     match Soup.find_string cid_label
             (BeautifulSoup html_parser (content response)) with
     | Some sect =>
         match Soup.find_next "a" sect with
         | Some cid_tag =>
             PyStr.re_search_cid (PyStr.strip (Soup.text cid_tag))
         | None => None
         end
     | None => None
     end,
   mkWorld (files w)
     (trace w ++ [Get (detailed_page_base +:+ identifier); Sleep 2])).
Proof.
  unfold extract_cid, bind, requests_get, sleep, emit, ret. simpl.
  rewrite <- app_assoc. simpl.
  destruct (negb _); [done|].
  destruct (Soup.find_string _ _) as [sect|]; [|done].
  destruct (Soup.find_next _ _) as [a|]; [|done].
  by destruct (PyStr.re_search_cid _).
Qed.

Lemma get_smiles_from_pubchem_run (cid : string) (w : World) :
  get_smiles_from_pubchem http_get cid w =
  (let response := http_get (pubchem_url cid) in
   if negb (status_code response =? 200)%Z then "N/A"
   else PyStr.strip (text response),
   mkWorld (files w) (trace w ++ [Get (pubchem_url cid); Sleep 2])).
Proof.
  unfold get_smiles_from_pubchem, bind, requests_get, sleep, emit, ret. simpl.
  rewrite <- app_assoc. simpl. by destruct (negb _).
Qed.

Lemma download_structure_run (identifier structure_folder : string)
    (w : World) :
  download_structure http_get identifier structure_folder w =
  (let response := http_get (structure_url identifier) in
   if (status_code response =? 200)%Z then
     ("Downloaded",
      mkWorld (<[os_path_join structure_folder (identifier +:+ "_3D.mol")
                 := Bytes (content response)]> (files w))
              (trace w ++ [Get (structure_url identifier)]))
   else
     ("Not found",
      mkWorld (files w) (trace w ++ [Get (structure_url identifier)]))).
Proof.
  unfold download_structure, bind, requests_get, write_bytes, emit, ret.
  simpl. by destruct (_ =? _)%Z.
Qed.

End Lookups.

(** C3, as it is stated, fails: an anchor text that contains [CID:12345]
    does not always give [12345].  On [CID:9 CID:12345] the leftmost match
    wins and the result is [9]; on [CID:123456] the digits are taken as far
    as they go and the result is [123456]. *)
Lemma extract_cid_contains_counterexample :
  let anchor (text : string) := Soup.Tag "a" [Soup.NavigableString text] in
  let found (identifier : string) :=
    Soup.find_string cid_label
      (BeautifulSoup Example3.html_parser
         (content (Example3.http_get (detailed_page_base +:+ identifier))))
    ≫= Soup.find_next "a" in
  found "IMPHY000005" = Some (anchor "CID:9 CID:12345")
  ∧ "CID:9 CID:12345" = "CID:9 " +:+ "CID:12345" +:+ ""
  ∧ (extract_cid Example3.http_get Example3.html_parser "IMPHY000005"
       empty_world).1 = Some "9"
  ∧ (extract_cid Example3.http_get Example3.html_parser "IMPHY000005"
       empty_world).1 ≠ Some "12345"
  ∧ found "IMPHY000006" = Some (anchor "CID:123456")
  ∧ "CID:123456" = "" +:+ "CID:12345" +:+ "6"
  ∧ (extract_cid Example3.http_get Example3.html_parser "IMPHY000006"
       empty_world).1 = Some "123456"
  ∧ (extract_cid Example3.http_get Example3.html_parser "IMPHY000006"
       empty_world).1 ≠ Some "12345".
Proof. split_and!; try reflexivity; vm_compute; discriminate. Qed.

(** C3, amended.  [extract_cid] returns [None] when the detail page does not
    answer 200, when no text node of the page equals the label, when no
    anchor follows the label, and when the text of that anchor has no match
    of [CID:<digits>]; otherwise it returns the digits of the leftmost
    match, taken as far as they go: when the trimmed text of the anchor is
    [pre ++ "CID:" ++ ds ++ post] with no match starting before [pre], [ds]
    a non-empty run of digits and [post] not starting with a digit (for
    instance the text [CID:12345]), it returns [ds]. *)
Theorem extract_cid_spec (http_get : string → Response)
    (html_parser : string → list Soup.node) (identifier : string) (w : World) :
  let response := http_get (detailed_page_base +:+ identifier) in
  let soup := BeautifulSoup html_parser (content response) in
  let result := (extract_cid http_get html_parser identifier w).1 in
  (status_code response ≠ 200%Z → result = None)
  ∧ ((∀ n, n ∈ Soup.descendants soup → n ≠ Soup.NavigableString cid_label) →
     result = None)
  ∧ (∀ sect, Soup.find_string cid_label soup = Some sect →
       Forall (λ n, Soup.is_tag "a" n = false) sect → result = None)
  ∧ (∀ sect cid_tag,
       Soup.find_string cid_label soup = Some sect →
       Soup.find_next "a" sect = Some cid_tag →
       (∀ pre, ¬ cid_match_at (PyStr.strip (Soup.text cid_tag)) pre) →
       result = None)
  ∧ (∀ sect cid_tag pre ds post,
       status_code response = 200%Z →
       Soup.find_string cid_label soup = Some sect →
       Soup.find_next "a" sect = Some cid_tag →
       PyStr.strip (Soup.text cid_tag) = pre +:+ "CID:" +:+ ds +:+ post →
       ds ≠ "" → PyStr.all_chars PyStr.is_digit ds = true →
       PyStr.head_is PyStr.is_digit post = false →
       (∀ pre', cid_match_at (pre +:+ "CID:" +:+ ds +:+ post) pre' →
                (String.length pre ≤ String.length pre')%nat) →
       result = Some ds).
Proof.
  intros response soup result. subst result.
  rewrite extract_cid_run. simpl. fold response. fold soup.
  split_and!.
  - intros Hst. apply Z.eqb_neq in Hst. by rewrite Hst.
  - intros Hno. destruct (negb _); [done|].
    unfold Soup.find_string. by rewrite SoupFacts.find_string_in_None.
  - intros sect -> Hno. destruct (negb _); [done|].
    by rewrite SoupFacts.find_next_None.
  - intros sect cid_tag -> -> Hno. destruct (negb _); [done|].
    by apply PyStrFacts.re_search_cid_None.
  - intros sect cid_tag pre ds post Hst -> -> -> Hne Hd Hp Hleft.
    rewrite Hst. simpl. by apply PyStrFacts.re_search_cid_Some.
Qed.

(** The detail page of the example answers 200 and its anchor reads
    [CID:12345]: the CID is [12345]. *)
Lemma extract_cid_spec_witness :
  (extract_cid Example.http_get Example.html_parser "IMPHY000001"
     empty_world).1 = Some "12345".
Proof.
  refine (proj2 (proj2 (proj2 (proj2
    (extract_cid_spec Example.http_get Example.html_parser "IMPHY000001"
       empty_world))))
    [Soup.NavigableString " "; Soup.Tag "a" [Soup.NavigableString " CID:12345 "];
     Soup.NavigableString " CID:12345 "]
    (Soup.Tag "a" [Soup.NavigableString " CID:12345 "]) "" "12345" ""
    _ _ _ _ _ _ _ _).
  - reflexivity.
  - reflexivity.
  - reflexivity.
  - reflexivity.
  - discriminate.
  - reflexivity.
  - reflexivity.
  - intros pre' _. simpl. lia.
Defined.

(** C4.  [get_smiles_from_pubchem] returns exactly ["N/A"] when PubChem does
    not answer 200; otherwise it returns the body with the blanks on either
    side removed: the body is a run of blanks, the result, and a run of
    blanks, and the result neither starts nor ends with a blank. *)
Theorem get_smiles_from_pubchem_spec (http_get : string → Response)
    (cid : string) (w : World) :
  let response := http_get (pubchem_url cid) in
  let result := (get_smiles_from_pubchem http_get cid w).1 in
  (status_code response ≠ 200%Z → result = "N/A")
  ∧ (status_code response = 200%Z →
     result = PyStr.strip (text response)
     ∧ ∃ l t, text response = l +:+ result +:+ t
              ∧ PyStr.all_chars PyStr.is_space l = true
              ∧ PyStr.all_chars PyStr.is_space t = true
              ∧ PyStr.head_is PyStr.is_space result = false
              ∧ PyStr.last_is PyStr.is_space result = false).
Proof.
  intros response result. subst result.
  rewrite get_smiles_from_pubchem_run. simpl. fold response. split.
  - intros Hst. apply Z.eqb_neq in Hst. by rewrite Hst.
  - intros ->. simpl. split; [done|]. apply PyStrFacts.strip_spec.
Qed.

(** PubChem answers 200 for CID 12345 and 404 for CID 678 in the example. *)
Lemma get_smiles_from_pubchem_spec_witness :
  (get_smiles_from_pubchem Example.http_get "678" empty_world).1 = "N/A"
  ∧ (get_smiles_from_pubchem Example.http_get "12345" empty_world).1
    = "COc1cc(CC=C)ccc1O".
Proof.
  split.
  - apply (proj1 (get_smiles_from_pubchem_spec Example.http_get "678"
                    empty_world)).
    vm_compute. discriminate.
  - etrans.
    + apply (proj2 (get_smiles_from_pubchem_spec Example.http_get "12345"
                      empty_world)).
      reflexivity.
    + reflexivity.
Defined.

Lemma all_chars_app (p : ascii → bool) (s t : string) :
  PyStr.all_chars p (s +:+ t) = PyStr.all_chars p s && PyStr.all_chars p t.
Proof.
  induction s as [|a s IH]; [done|].
  rewrite PyStrFacts.app_cons. simpl. by rewrite IH, andb_assoc.
Qed.

(** C5, as it is stated, fails: for an identifier that begins with a path
    separator the file is not written in the destination folder.  With the
    identifier [/etc/elsewhere] and the folder [out/3d_structure] the bytes
    go to [/etc/elsewhere_3D.mol], the only file there is afterwards. *)
Lemma download_structure_folder_counterexample :
  let run := download_structure Example3.http_get "/etc/elsewhere"
               "out/3d_structure" empty_world in
  status_code (Example3.http_get (structure_url "/etc/elsewhere")) = 200%Z
  ∧ run.1 = "Downloaded"
  ∧ files run.2 = {["/etc/elsewhere_3D.mol" := Bytes "twice"]}
  ∧ files run.2 !! ("out/3d_structure" +:+ "/" +:+ "/etc/elsewhere"
                    +:+ "_3D.mol") = None
  ∧ "/etc/elsewhere_3D.mol"
    ≠ "out/3d_structure" +:+ "/" +:+ "/etc/elsewhere" +:+ "_3D.mol".
Proof.
  split_and!; [reflexivity..|discriminate].
Qed.

(** C5, amended.  On a 200 response [download_structure] stores the bytes of
    the response at [os.path.join(structure_folder, identifier + "_3D.mol")],
    leaves every other file as it was and returns ["Downloaded"]; on any
    other status the file system is unchanged and the result is
    ["Not found"].  For an identifier that does not begin with a path
    separator, that path is the folder, a separator (none when the folder
    is empty or ends with one) and [<identifier>_3D.mol]; when the
    identifier holds no separator at all, neither does the file name, so
    that the file is in the folder itself.  An identifier that begins with
    a separator is written at [<identifier>_3D.mol], whatever the folder. *)
Theorem download_structure_spec (http_get : string → Response)
    (identifier structure_folder : string) (w : World) :
  let response := http_get (structure_url identifier) in
  let path := os_path_join structure_folder (identifier +:+ "_3D.mol") in
  let result := (download_structure http_get identifier structure_folder w).1 in
  let w' := (download_structure http_get identifier structure_folder w).2 in
  let is_sep := Ascii.eqb "/"%char in
  (status_code response = 200%Z →
     result = "Downloaded"
     ∧ files w' !! path = Some (Bytes (content response))
     ∧ (∀ p, p ≠ path → files w' !! p = files w !! p))
  ∧ (status_code response ≠ 200%Z →
     result = "Not found" ∧ files w' = files w)
  ∧ (PyStr.head_is is_sep identifier = false →
     path = structure_folder
            +:+ (if String.eqb structure_folder ""
                    || PyStr.last_is is_sep structure_folder
                 then "" else "/")
            +:+ identifier +:+ "_3D.mol")
  ∧ (PyStr.all_chars (λ a, negb (is_sep a)) identifier = true →
     PyStr.all_chars (λ a, negb (is_sep a)) (identifier +:+ "_3D.mol") = true)
  ∧ (PyStr.head_is is_sep identifier = true →
     path = identifier +:+ "_3D.mol").
Proof.
  intros response path result w' is_sep. subst result w'.
  rewrite download_structure_run. simpl. fold response. fold path.
  assert (PyStr.head_is is_sep (identifier +:+ "_3D.mol")
          = PyStr.head_is is_sep identifier) as Hhead
    by (by destruct identifier).
  split_and!.
  - intros ->. simpl. split_and!; [done| |].
    + by rewrite lookup_insert_eq.
    + intros p Hp. by rewrite lookup_insert_ne.
  - intros Hst. apply Z.eqb_neq in Hst. by rewrite Hst.
  - intros Hh. subst path. unfold os_path_join. fold is_sep.
    rewrite Hhead, Hh. by destruct (_ || _).
  - intros Hall. by rewrite all_chars_app, Hall.
  - intros Hh. subst path. unfold os_path_join. fold is_sep.
    by rewrite Hhead, Hh.
Qed.

(** One structure of the example is served, the other one is missing. *)
Lemma download_structure_spec_witness :
  files (download_structure Example.http_get "IMPHY000001" "out/3d_structure"
           empty_world).2 !! "out/3d_structure/IMPHY000001_3D.mol"
  = Some (Bytes "MOLFILE")
  ∧ (download_structure Example.http_get "IMPHY000003" "out/3d_structure"
       empty_world).1 = "Not found"
  ∧ os_path_join "out/3d_structure" ("IMPHY000001" +:+ "_3D.mol")
    = "out/3d_structure" +:+ "/" +:+ "IMPHY000001" +:+ "_3D.mol"
  ∧ os_path_join "out/3d_structure" ("/etc/elsewhere" +:+ "_3D.mol")
    = "/etc/elsewhere" +:+ "_3D.mol".
Proof.
  pose proof (download_structure_spec Example.http_get "IMPHY000001"
                "out/3d_structure" empty_world) as (H200 & _ & Hin & _ & _).
  pose proof (download_structure_spec Example.http_get "IMPHY000003"
                "out/3d_structure" empty_world) as (_ & H404 & _).
  pose proof (download_structure_spec Example.http_get "/etc/elsewhere"
                "out/3d_structure" empty_world) as (_ & _ & _ & _ & Hout).
  split_and!.
  - destruct H200 as (_ & Hfile & _); [reflexivity|exact Hfile].
  - apply H404. vm_compute. discriminate.
  - apply Hin. reflexivity.
  - apply Hout. reflexivity.
Defined.

Lemma take_digits_all (s : string) :
  PyStr.all_chars PyStr.is_digit (PyStr.take_digits s) = true.
Proof.
  induction s as [|a s IH]; [done|]. simpl.
  destruct (PyStr.is_digit a) eqn:Ha; [|done]. simpl. by rewrite Ha.
Qed.

Lemma re_search_cid_digits (s ds : string) :
  PyStr.re_search_cid s = Some ds →
  ds ≠ "" ∧ PyStr.all_chars PyStr.is_digit ds = true.
Proof.
  induction s as [|a s IH]; rewrite PyStrFacts.re_search_cid_unfold.
  - done.
  - destruct (PyStr.match_cid_here (String a s)) as [x|] eqn:Hm; [|done].
    intros [= ->]. unfold PyStr.match_cid_here in Hm.
    destruct (PyStr.strip_prefix _ _) as [rest|]; [|done].
    pose proof (take_digits_all rest) as Hall.
    destruct (PyStr.take_digits rest); [done|].
    injection Hm as <-. done.
Qed.

Section CidDigits.
Variable http_get : string → Response.
Variable html_parser : string → list Soup.node.

Lemma cid_of_digits (identifier c : string) :
  cid_of http_get html_parser identifier = Some c →
  c ≠ "" ∧ PyStr.all_chars PyStr.is_digit c = true.
Proof.
  unfold cid_of. rewrite extract_cid_run. simpl.
  destruct (negb _); [done|].
  destruct (Soup.find_string _ _) as [sect|]; [|done].
  destruct (Soup.find_next _ _) as [a|]; [|done].
  apply re_search_cid_digits.
Qed.

End CidDigits.

(** ** The listing loop *)

Section Listing.
Variable http_get : string → Response.
Variable html_parser : string → list Soup.node.

Lemma extract_cid_result (identifier : string) (w : World) :
  (extract_cid http_get html_parser identifier w).1
  = cid_of http_get html_parser identifier.
Proof. unfold cid_of. by rewrite !extract_cid_run. Qed.

Lemma get_smiles_result (c : string) (w : World) :
  (get_smiles_from_pubchem http_get c w).1 = smiles_of http_get c.
Proof. unfold smiles_of. by rewrite !get_smiles_from_pubchem_run. Qed.

Lemma download_structure_result (identifier folder : string) (w : World) :
  (download_structure http_get identifier folder w).1
  = status_of http_get identifier.
Proof.
  unfold status_of. rewrite !download_structure_run. simpl.
  by destruct (_ =? _)%Z.
Qed.

(** One iteration of the loop appends the row of [compound_of], if the
    listing row is well formed and has a CID. *)
Lemma process_row_result (folder : string) (row : Soup.node)
    (plant_info : list CompoundRow) (w : World) :
  (process_row http_get html_parser folder row plant_info w).1
  = plant_info ++ (if well_formed row
                   then option_list (compound_of http_get html_parser row)
                   else []).
Proof.
  unfold process_row, well_formed, compound_of, bind, ret.
  destruct (3 <? _)%nat; [|by rewrite app_nil_r].
  fold (row_identifier row). fold (row_name row).
  pose proof (extract_cid_result (row_identifier row) w) as Hc.
  destruct (extract_cid http_get html_parser (row_identifier row) w)
    as [c w1]. simpl in Hc.
  rewrite <- Hc. destruct c as [c|]; [|by rewrite app_nil_r].
  destruct (cid_of_digits http_get html_parser _ _ (eq_sym Hc)) as [Hne _].
  replace (truthy (VStr c)) with true by (by destruct c).
  pose proof (get_smiles_result c w1) as Hs.
  destruct (get_smiles_from_pubchem http_get c w1) as [sm w2]. simpl in Hs.
  pose proof (download_structure_result (row_identifier row) folder w2) as Hd.
  destruct (download_structure http_get (row_identifier row) folder w2)
    as [st w3].
  simpl in Hd. simpl. by rewrite Hs, Hd.
Qed.

(** A listing row without a CID costs one request to the detail page and
    nothing else. *)
Lemma process_row_no_cid (folder : string) (row : Soup.node)
    (plant_info : list CompoundRow) (w : World) :
  well_formed row = true →
  cid_of http_get html_parser (row_identifier row) = None →
  process_row http_get html_parser folder row plant_info w
  = (plant_info,
     mkWorld (files w)
       (trace w ++ [Get (detailed_page_base +:+ row_identifier row);
                    Sleep 2])).
Proof.
  intros Hwf Hcid. unfold process_row, bind, ret.
  unfold well_formed in Hwf. rewrite Hwf.
  fold (row_identifier row).
  rewrite <- (extract_cid_result (row_identifier row) w) in Hcid.
  rewrite extract_cid_run in Hcid |- *. simpl in Hcid. simpl.
  by rewrite Hcid.
Qed.

Lemma for_rows_result (folder : string) (rows : list Soup.node)
    (plant_info : list CompoundRow) (w : World) :
  (for_rows http_get html_parser folder rows plant_info w).1
  = plant_info ++ omap (compound_of http_get html_parser)
                    (List.filter well_formed rows).
Proof.
  revert plant_info w. induction rows as [|row rows IH]; intros acc w; simpl.
  - by rewrite app_nil_r.
  - unfold bind.
    pose proof (process_row_result folder row acc w) as Hrow.
    destruct (process_row http_get html_parser folder row acc w) as [acc' w'].
    simpl in Hrow. rewrite IH, Hrow.
    destruct (well_formed row); simpl.
    + rewrite <- app_assoc. by destruct (compound_of _ _ row).
    + by rewrite app_nil_r.
Qed.

(** The rows that [search_plant] returns. *)
Lemma search_plant_result (plant_name folder : string) (w : World) :
  (search_plant http_get html_parser plant_name folder w).1
  = let response := http_get (plant_page_url plant_name) in
    if negb (status_code response =? 200)%Z then []
    else omap (compound_of http_get html_parser)
           (well_formed_rows (BeautifulSoup html_parser (content response))).
Proof.
  unfold search_plant, bind, requests_get, sleep, emit, ret. simpl.
  destruct (negb _); [done|].
  unfold well_formed_rows, listing_rows.
  destruct (Soup.find "table" _) as [table|]; [|done].
  by rewrite for_rows_result.
Qed.

End Listing.

(** ** The worksheet *)

Module ReportFacts.
Import Report ReportSpec.

Lemma write_row_lookup (r c : nat) (vals : list value) (ws : Worksheet)
    (r' c' : nat) :
  write_row r c vals ws !! (r', c') =
  if decide (r' = r ∧ c ≤ c' < c + length vals)
  then new_cell <$> vals !! (c' - c)
  else ws !! (r', c').
Proof.
  revert c ws. induction vals as [|v vs IH]; intros c ws; simpl.
  - case_decide; [lia | done].
  - rewrite IH. destruct (decide (r' = r ∧ c' = c)) as [[-> ->]|Hne].
    + rewrite decide_False by lia. rewrite decide_True by lia.
      rewrite lookup_insert_eq. by rewrite Nat.sub_diag.
    + rewrite lookup_insert_ne by (intros [= -> ->]; by apply Hne).
      repeat case_decide; try lia; try done.
      replace (c' - c) with (S (c' - S c)) by lia. done.
Qed.

Lemma write_rows_lookup (r : nat) (rows : list (list value)) (ws : Worksheet)
    (r' c' : nat) :
  write_rows r rows ws !! (r', c') =
  match (if decide (r ≤ r') then rows !! (r' - r) else None) with
  | Some vs =>
      if decide (1 ≤ c' < 1 + length vs) then new_cell <$> vs !! (c' - 1)
      else ws !! (r', c')
  | None => ws !! (r', c')
  end.
Proof.
  revert r ws. induction rows as [|vs rest IH]; intros r ws; simpl.
  - by case_decide.
  - rewrite IH, write_row_lookup.
    destruct (decide (r' = r)) as [->|Hne].
    + rewrite (decide_False (P := S r ≤ r)) by lia.
      rewrite (decide_True (P := r ≤ r)) by lia.
      rewrite Nat.sub_diag. simpl.
      repeat case_decide; try lia; done.
    + destruct (decide (r ≤ r')) as [Hle|Hgt].
      * rewrite (decide_True (P := S r ≤ r')) by lia.
        replace (r' - r) with (S (r' - S r)) by lia. simpl.
        by rewrite (decide_False (P := r' = r ∧ _)) by lia.
      * rewrite (decide_False (P := S r ≤ r')) by lia.
        by rewrite (decide_False (P := r' = r ∧ _)) by lia.
Qed.

Lemma data_with_slno_lookup (data : list CompoundRow) (i : nat) :
  data_with_slno data !! i
  = (λ row, VInt (Z.of_nat i + 1) :: row_values row) <$> data !! i.
Proof. unfold data_with_slno. by rewrite list_lookup_imap. Qed.

Lemma sheet_of_lookup (data : list CompoundRow) (r c : nat) :
  sheet_of (mkDataFrame columns (data_with_slno data)) !! (r, c)
  = stage_cell data 0 0 r c.
Proof.
  unfold sheet_of, stage_cell. simpl df_rows. simpl df_columns.
  rewrite write_rows_lookup, write_row_lookup, lookup_empty.
  destruct (decide (r = 1)) as [->|Hr1].
  - rewrite (decide_False (P := 2 ≤ 1)) by lia.
    destruct c as [|j]; [by rewrite decide_False by lia|].
    do 7 (destruct j as [|j]; [done|]).
    by rewrite decide_False by (simpl; lia).
  - destruct (decide (2 ≤ r)) as [Hr2|Hr2];
      [|by rewrite (decide_False (P := r = 1 ∧ _)) by lia].
    rewrite data_with_slno_lookup.
    rewrite (decide_False (P := r = 1 ∧ _)) by lia.
    destruct (data !! (r - 2)) as [row|]; [|done]. simpl.
    rewrite (decide_False (P := _ ∨ _)) by lia.
    destruct c as [|j]; [done|].
    do 7 (destruct j as [|j]; [done|]). done.
Qed.

Lemma max_row_eq (ws : Worksheet) (m : nat) :
  (∃ c, is_Some (ws !! (m, c))) →
  (∀ r c, is_Some (ws !! (r, c)) → r ≤ m) →
  max_row ws = m.
Proof.
  intros [c [cell Hc]] Hle. unfold max_row.
  assert (m ∈ (map_to_list ws).*1.*1) as Hin.
  { apply list_elem_of_fmap. exists (m, c). split; [done|].
    apply list_elem_of_fmap. exists ((m, c), cell). split; [done|].
    by apply elem_of_map_to_list. }
  destruct ((map_to_list ws).*1.*1) as [|r0 rows] eqn:Hrows.
  { by apply elem_of_nil in Hin. }
  apply Nat.le_antisymm.
  - assert (∀ x, x ∈ r0 :: rows → x ≤ m) as Hall.
    { rewrite <- Hrows. intros x Hx.
      apply list_elem_of_fmap in Hx as ([r1 c1] & -> & Hk).
      apply list_elem_of_fmap in Hk as ([k cell1] & Hk1 & Hk).
      apply elem_of_map_to_list in Hk. simpl in *. subst k.
      apply (Hle r1 c1). by exists cell1. }
    apply Hall. by apply max_list_elem_of.
  - by apply max_list_elem_of_le.
Qed.

Lemma stage_cell_bound (data : list CompoundRow) (k6 k7 r c : nat) :
  is_Some (stage_cell data k6 k7 r c) → 1 ≤ r ≤ length data + 1.
Proof.
  unfold stage_cell. intros [cell H].
  destruct (decide (r = 1)); [lia|].
  destruct (decide (2 ≤ r)); [|done].
  destruct (data !! (r - 2)) as [row|] eqn:Hrow; [|done].
  apply lookup_lt_Some in Hrow. lia.
Qed.

Lemma stage_cell_last (data : list CompoundRow) (k6 k7 : nat) :
  is_Some (stage_cell data k6 k7 (length data + 1) 1).
Proof.
  unfold stage_cell. destruct (decide (length data + 1 = 1)); [by eexists|].
  destruct (decide (2 ≤ length data + 1)); [|lia].
  destruct (data !! (length data + 1 - 2)) as [row|] eqn:Hrow.
  - simpl. by eexists.
  - apply lookup_ge_None in Hrow. lia.
Qed.

Lemma stage_max_row (data : list CompoundRow) (k6 k7 : nat) (ws : Worksheet) :
  (∀ r c, ws !! (r, c) = stage_cell data k6 k7 r c) →
  max_row ws = length data + 1.
Proof.
  intros Hws. apply max_row_eq.
  - exists 1. rewrite Hws. apply stage_cell_last.
  - intros r c. rewrite Hws. intros H%stage_cell_bound. lia.
Qed.


Lemma stage_cell_data (data : list CompoundRow) (k6 k7 i c : nat)
    (row : CompoundRow) :
  data !! i = Some row →
  stage_cell data k6 k7 (i + 2) c
  = if decide ((c = 6 ∧ i < k6) ∨ (c = 7 ∧ i < k7))
    then data_cell i row c else raw_cell i row c.
Proof.
  intros Hrow. unfold stage_cell.
  destruct (decide (i + 2 = 1)); [lia|].
  destruct (decide (2 ≤ i + 2)); [|lia].
  replace (i + 2 - 2) with i by lia. rewrite Hrow. simpl.
  repeat case_decide; try done; lia.
Qed.

Lemma stage_cell_step6 (data : list CompoundRow) (k6 k7 r c : nat) :
  (r, c) ≠ (k6 + 2, 6) →
  stage_cell data (S k6) k7 r c = stage_cell data k6 k7 r c.
Proof.
  intros Hne. unfold stage_cell.
  destruct (decide (r = 1)); [done|]. destruct (decide (2 ≤ r)); [|done].
  destruct (data !! (r - 2)) as [row|]; [|done]. simpl.
  assert (¬ (r = k6 + 2 ∧ c = 6)) by (intros [-> ->]; by apply Hne).
  repeat case_decide; try done; lia.
Qed.

Lemma stage_cell_step7 (data : list CompoundRow) (k6 k7 r c : nat) :
  (r, c) ≠ (k7 + 2, 7) →
  stage_cell data k6 (S k7) r c = stage_cell data k6 k7 r c.
Proof.
  intros Hne. unfold stage_cell.
  destruct (decide (r = 1)); [done|]. destruct (decide (2 ≤ r)); [|done].
  destruct (data !! (r - 2)) as [row|]; [|done]. simpl.
  assert (¬ (r = k7 + 2 ∧ c = 7)) by (intros [-> ->]; by apply Hne).
  repeat case_decide; try done; lia.
Qed.

(** Reading back changes nothing in a string without CR. *)
Lemma read_back_plain (s : string) :
  PyStr.all_chars (λ a, negb (Ascii.eqb a CR)) s = true → read_back s = s.
Proof.
  induction s as [|a s IH]; [done|]. simpl.
  intros [Ha Hs]%andb_prop. apply negb_true_iff in Ha. rewrite Ha.
  by rewrite IH.
Qed.

(** A string without CR and LF is read back from itself only. *)
Lemma read_back_inv (s t : string) :
  PyStr.all_chars (λ a, negb (Ascii.eqb a CR) && negb (Ascii.eqb a LF)) t
  = true →
  read_back s = t → s = t.
Proof.
  revert t. induction s as [|a s IH]; intros t Ht; [done|].
  simpl. destruct (Ascii.eqb a CR) eqn:Ha.
  - intros <-. simpl in Ht. done.
  - destruct t as [|b t]; [done|]. intros [= -> Hs]. f_equal.
    simpl in Ht. apply andb_prop in Ht as [_ Ht]. by apply IH.
Qed.

Lemma read_back_empty (s : string) : read_back s = "" ↔ s = "".
Proof.
  split; [|by intros ->]. destruct s as [|a s]; [done|]. simpl.
  by destruct (Ascii.eqb a CR).
Qed.

Lemma stored_value_plain (s : string) :
  s ≠ "" → PyStr.all_chars (λ a, negb (Ascii.eqb a CR)) s = true →
  stored_value (VStr s) = VStr s.
Proof.
  intros Hne Hs. unfold stored_value. rewrite read_back_plain by done.
  by destruct s.
Qed.

Lemma stored_value_inv (s t : string) :
  PyStr.all_chars (λ a, negb (Ascii.eqb a CR) && negb (Ascii.eqb a LF)) t
  = true →
  stored_value (VStr s) = VStr t → s = t.
Proof.
  intros Ht. unfold stored_value.
  destruct (read_back s) as [|a u] eqn:Hs; [done|].
  intros [= <-]. by apply read_back_inv.
Qed.

Lemma value_is_str_stored (s : string) :
  value_is_str (stored_value (VStr s)) "Downloaded"
  = String.eqb s "Downloaded".
Proof.
  destruct (String.eqb_spec s "Downloaded") as [->|Hne]; [done|].
  destruct (stored_value (VStr s)) as [| |u] eqn:Hu; [done..|]. simpl.
  apply String.eqb_neq. intros ->. by apply stored_value_inv in Hu.
Qed.

Lemma truthy_stored (s : string) :
  truthy (stored_value (VStr s)) = negb (String.eqb s "").
Proof.
  unfold stored_value. destruct (read_back s) as [|a u] eqn:Hs.
  - apply read_back_empty in Hs as ->. done.
  - destruct s; [done|]. done.
Qed.

Lemma totals_snoc (data : list CompoundRow) (row : CompoundRow) :
  downloaded_total (data ++ [row])
  = (downloaded_total data + if is_downloaded row then 1 else 0)%Z
  ∧ missing_total (data ++ [row])
    = (missing_total data + if is_downloaded row then 0 else 1)%Z.
Proof.
  unfold downloaded_total, missing_total.
  rewrite !List.filter_app, !length_app. simpl.
  destruct (is_downloaded row); simpl; lia.
Qed.

(** The colouring loop, after its first [k] iterations. *)
Lemma fill_loop (data : list CompoundRow) (ws0 : Worksheet) (k : nat) :
  (∀ r c, ws0 !! (r, c) = stage_cell data 0 0 r c) →
  k ≤ length data →
  ∃ ws, foldl fill_step (ws0, 0%Z, 0%Z) (seq 2 k)
        = (ws, downloaded_total (take k data), missing_total (take k data))
        ∧ ∀ r c, ws !! (r, c) = stage_cell data k 0 r c.
Proof.
  intros Hws0. induction k as [|k IH]; intros Hk.
  - exists ws0. by rewrite take_0.
  - destruct IH as (ws & Hfold & Hws); [lia|].
    destruct (lookup_lt_is_Some_2 data k) as [row Hrow]; [lia|].
    rewrite seq_S, foldl_app, Hfold. simpl.
    rewrite (take_S_r _ _ _ Hrow).
    destruct (totals_snoc (take k data) row) as [-> ->].
    assert (get_cell ws (S (S k), 6) = new_cell (VStr (structure_status row)))
      as Hcell.
    { unfold get_cell. replace (S (S k)) with (k + 2) by lia.
      rewrite Hws, (stage_cell_data _ _ _ _ _ _ Hrow).
      by rewrite decide_False by lia. }
    rewrite Hcell.
    change (cell_value (new_cell ?v)) with (stored_value v).
    rewrite value_is_str_stored. fold (is_downloaded row).
    assert (∀ cell, ∀ r c,
              <[(S (S k), 6) := cell]> ws !! (r, c)
              = if decide ((r, c) = (k + 2, 6)) then Some cell
                else stage_cell data (S k) 0 r c) as Hins.
    { intros cell r c. case_decide as Hrc.
      - injection Hrc as -> ->. replace (k + 2) with (S (S k)) by lia.
        apply lookup_insert_eq.
      - rewrite stage_cell_step6 by done. rewrite <- Hws.
        apply lookup_insert_ne. intros [= <- <-]. apply Hrc. f_equal. lia. }
    destruct (is_downloaded row) eqn:Hd; rewrite !Z.add_0_r;
      (eexists; split; [reflexivity|]); intros r c; rewrite Hins;
      (case_decide as Hrc; [|done]); injection Hrc as -> ->;
      rewrite (stage_cell_data _ _ _ _ _ _ Hrow);
      rewrite decide_True by lia; simpl; by rewrite Hd.
Qed.

(** The loop over the link column, after its first [k] iterations. *)
Lemma link_loop (data : list CompoundRow) (ws1 : Worksheet) (k : nat) :
  (∀ r c, ws1 !! (r, c) = stage_cell data (length data) 0 r c) →
  k ≤ length data →
  ∀ r c, foldl link_step ws1 (seq 2 k) !! (r, c)
         = stage_cell data (length data) k r c.
Proof.
  intros Hws1. induction k as [|k IH]; intros Hk; [done|].
  specialize (IH ltac:(lia)).
  destruct (lookup_lt_is_Some_2 data k) as [row Hrow]; [lia|].
  rewrite seq_S, foldl_app. simpl.
  set (ws := foldl link_step ws1 (seq 2 k)) in *.
  assert (get_cell ws (S (S k), 7) = new_cell (VStr (hyperlink row))) as Hcell.
  { unfold get_cell. replace (S (S k)) with (k + 2) by lia.
    rewrite IH, (stage_cell_data _ _ _ _ _ _ Hrow).
    by rewrite decide_False by lia. }
  unfold link_step. rewrite Hcell.
  change (cell_value (new_cell ?v)) with (stored_value v).
  rewrite truthy_stored.
  assert (∀ cell, ∀ r c,
            <[(S (S k), 7) := cell]> ws !! (r, c)
            = if decide ((r, c) = (k + 2, 7)) then Some cell
              else stage_cell data (length data) (S k) r c) as Hins.
  { intros cell r c. case_decide as Hrc.
    - injection Hrc as -> ->. replace (k + 2) with (S (S k)) by lia.
      apply lookup_insert_eq.
    - rewrite stage_cell_step7 by done. rewrite <- IH.
      apply lookup_insert_ne. intros [= <- <-]. apply Hrc. f_equal. lia. }
  intros r c.
  destruct (String.eqb (hyperlink row) "") eqn:Hh; cbn [negb]; rewrite Hins;
    (case_decide as Hrc; [|done]); injection Hrc as -> ->;
    rewrite (stage_cell_data _ _ _ _ _ _ Hrow);
    rewrite decide_True by lia; cbn [data_cell]; rewrite Hh; [|done].
  apply String.eqb_eq in Hh. by rewrite Hh.
Qed.

Lemma assign_fresh (ws : Worksheet) (rc : nat * nat) (v : value) :
  ws !! rc = None → assign ws rc v = <[rc := plain v]> ws.
Proof. intros H. unfold assign, get_cell. by rewrite H. Qed.

Lemma report_cell_stage (data : list CompoundRow) (r c : nat) :
  r ≤ length data + 1 →
  stage_cell data (length data) (length data) r c = report_cell data r c.
Proof.
  intros Hr. unfold stage_cell, report_cell.
  destruct (decide (r = 1)); [done|].
  destruct (decide (2 ≤ r)).
  - rewrite (decide_True (P := 2 ≤ r ≤ _)) by lia.
    destruct (data !! (r - 2)) as [row|] eqn:Hrow; [|done]. simpl.
    case_decide as Hc; [done|].
    destruct c as [|c]; [done|].
    do 7 (destruct c as [|c]; [done || (exfalso; apply Hc; lia)|]). done.
  - rewrite (decide_False (P := 2 ≤ r ≤ _)) by lia.
    by rewrite decide_False by lia.
Qed.

Lemma report_cell_summary (data : list CompoundRow) (r c : nat) :
  length data + 1 < r →
  report_cell data r c
  = if decide (length data + 3 ≤ r ≤ length data + 5)
    then summary_cell data (r - (length data + 3)) c else None.
Proof.
  intros Hr. unfold report_cell.
  destruct (decide (r = 1)); [lia|].
  by rewrite (decide_False (P := 2 ≤ r ≤ _)) by lia.
Qed.

Ltac fresh_cell H :=
  rewrite ?lookup_insert_ne by (intros [=]; lia); apply H; lia.

(** What [save_to_excel] leaves in the world: the workbook at [file_path],
    whose cells are those of [report_cell]. *)
Lemma save_to_excel_run (data : list CompoundRow) (file_path : string)
    (w : World) :
  ∃ ws, save_to_excel data file_path w
        = (Some (), mkWorld (<[file_path := Xlsx ws]> (files w)) (trace w))
        ∧ ∀ r c, ws !! (r, c) = report_cell data r c.
Proof.
  unfold save_to_excel, bind, to_excel, load_workbook, save, ret. simpl.
  rewrite lookup_insert_eq.
  set (ws0 := sheet_of _).
  assert (∀ r c, ws0 !! (r, c) = stage_cell data 0 0 r c) as Hws0
    by apply sheet_of_lookup.
  unfold iter_rows at 1. rewrite (stage_max_row _ _ _ _ Hws0).
  replace (length data + 1 - 1) with (length data) by lia.
  destruct (fill_loop data ws0 (length data) Hws0) as (ws1 & Hfold & Hws1);
    [done|].
  rewrite Hfold, firstn_all.
  unfold iter_rows. rewrite (stage_max_row _ _ _ _ Hws1).
  replace (length data + 1 - 1) with (length data) by lia.
  pose proof (link_loop data ws1 (length data) Hws1 ltac:(done)) as Hws2.
  set (ws2 := foldl link_step ws1 _) in *.
  rewrite (stage_max_row _ _ _ _ Hws2).
  assert (∀ r c, length data + 1 < r → ws2 !! (r, c) = None) as Hfree.
  { intros r c Hr. rewrite Hws2.
    destruct (stage_cell data _ _ r c) eqn:Hcell; [|done].
    assert (1 ≤ r ≤ length data + 1); [|lia].
    eapply stage_cell_bound. by rewrite Hcell. }
  set (s := length data + 1 + 2).
  rewrite (assign_fresh ws2 (s, 1)) by (apply Hfree; lia).
  rewrite (assign_fresh _ (s, 2)) by fresh_cell Hfree.
  rewrite (assign_fresh _ (s + 1, 1)) by fresh_cell Hfree.
  rewrite (assign_fresh _ (s + 1, 2)) by fresh_cell Hfree.
  rewrite (assign_fresh _ (s + 2, 1)) by fresh_cell Hfree.
  rewrite (assign_fresh _ (s + 2, 2)) by fresh_cell Hfree.
  cbn [files trace]. rewrite insert_insert_eq.
  eexists. split; [reflexivity|].
  intros r c. destruct (decide (r ≤ length data + 1)) as [Hr|Hr].
  - rewrite !lookup_insert_ne by (intros [=]; lia).
    rewrite Hws2. by apply report_cell_stage.
  - rewrite report_cell_summary by lia.
    rewrite !lookup_insert. subst s.
    repeat case_decide; simplify_eq; try lia.
    all: try (match goal with
              | |- Some _ = summary_cell _ ?k _ =>
                  first [replace k with 0 by lia | replace k with 1 by lia
                        | replace k with 2 by lia]; reflexivity
              end).
    all: rewrite ?Hfree by lia; try done.
    assert (r = length data + 3 ∨ r = length data + 4 ∨ r = length data + 5)
      as [-> | [-> | ->]] by lia.
    all: match goal with
         | |- None = summary_cell _ ?k _ =>
             first [replace k with 0 by lia | replace k with 1 by lia
                   | replace k with 2 by lia]
         end.
    all: destruct c as [|[|[|c]]]; try done.
    all: match goal with
         | H : (_, _) ≠ (_, _) |- _ => exfalso; apply H; f_equal; lia
         end.
Qed.

End ReportFacts.

(** ** The report *)

Section ReportWritten.
Import Report ReportSpec ReportFacts.

(** [save_to_excel] returns normally and the workbook it leaves at
    [file_path] has the cells of [report_cell]. *)
Lemma report_written (data : list CompoundRow) (file_path : string)
    (w : World) :
  ∃ ws, (save_to_excel data file_path w).1 = Some ()
        ∧ sheet_at (save_to_excel data file_path w).2 file_path = Some ws
        ∧ ∀ r c, ws !! (r, c) = report_cell data r c.
Proof.
  destruct (save_to_excel_run data file_path w) as (ws & -> & Hws).
  exists ws. unfold sheet_at. simpl. by rewrite lookup_insert_eq.
Qed.

Lemma report_cell_data (data : list CompoundRow) (i c : nat)
    (row : CompoundRow) :
  data !! i = Some row → report_cell data (i + 2) c = data_cell i row c.
Proof.
  intros Hrow. pose proof (lookup_lt_Some _ _ _ Hrow). unfold report_cell.
  destruct (decide (i + 2 = 1)); [lia|].
  rewrite (decide_True (P := 2 ≤ i + 2 ≤ _)) by lia.
  replace (i + 2 - 2) with i by lia. by rewrite Hrow.
Qed.

Lemma report_cell_summary_row (data : list CompoundRow) (k c : nat) :
  k < 3 →
  report_cell data (length data + 3 + k) c = summary_cell data k c.
Proof.
  intros Hk. rewrite report_cell_summary by lia.
  rewrite decide_True by lia. f_equal. lia.
Qed.

Lemma report_cell_Some (data : list CompoundRow) (r c : nat) :
  is_Some (report_cell data r c) →
  1 ≤ r ≤ length data + 1 ∨ length data + 3 ≤ r ≤ length data + 5.
Proof.
  intros [cell H]. destruct (decide (r ≤ length data + 1)) as [Hr|Hr].
  - left. rewrite <- report_cell_stage in H by done.
    eapply stage_cell_bound. by rewrite H.
  - right. rewrite report_cell_summary in H by lia. by case_decide.
Qed.

Lemma report_cell_first_column (data : list CompoundRow) (r : nat) :
  1 ≤ r ≤ length data + 1 ∨ length data + 3 ≤ r ≤ length data + 5 →
  ∃ cell, report_cell data r 1 = Some cell ∧ cell_value cell ≠ VNone.
Proof.
  intros [Hr|Hr].
  - destruct (decide (r = 1)) as [->|Hr1].
    + eexists. split; [reflexivity|done].
    + destruct (lookup_lt_is_Some_2 data (r - 2)) as [row Hrow]; [lia|].
      replace r with (r - 2 + 2) by lia.
      rewrite (report_cell_data _ _ _ _ Hrow).
      eexists. split; [reflexivity|done].
  - assert (∃ k, k < 3 ∧ r = length data + 3 + k) as (k & Hk & ->)
      by (exists (r - (length data + 3)); lia).
    rewrite report_cell_summary_row by done.
    destruct k as [|[|[|k]]]; try lia; (eexists; split; [reflexivity|done]).
Qed.

(** The Structure cells that read ["Downloaded"], counted on the sheet, are
    the rows of the input whose status is ["Downloaded"]. *)
Lemma count_structure_cells (data : list CompoundRow) (ws : Worksheet)
    (p : option value → bool) (q : CompoundRow → bool) :
  (∀ r c, ws !! (r, c) = report_cell data r c) →
  (∀ row, p (Some (stored_value (VStr (structure_status row)))) = q row) →
  length (List.filter (λ r, p (cell_value <$> ws !! (r, 6)))
            (seq 2 (length data)))
  = length (List.filter q data).
Proof.
  intros Hws Hpq.
  assert (∀ k, k ≤ length data →
            length (List.filter (λ r, p (cell_value <$> ws !! (r, 6)))
                      (seq 2 k))
            = length (List.filter q (take k data))) as Hk.
  { induction k as [|k IH]; intros Hk; [by rewrite take_0|].
    destruct (lookup_lt_is_Some_2 data k) as [row Hrow]; [lia|].
    rewrite seq_S, (take_S_r _ _ _ Hrow), !List.filter_app, !length_app.
    rewrite IH by lia. f_equal.
    assert (cell_value <$> ws !! (2 + k, 6)
            = Some (stored_value (VStr (structure_status row)))) as Hcell.
    { replace (2 + k) with (k + 2) by lia.
      by rewrite Hws, (report_cell_data _ _ _ _ Hrow). }
    cbn [List.filter]. rewrite Hcell, Hpq. by destruct (q row). }
  rewrite Hk by done. by rewrite firstn_all.
Qed.

End ReportWritten.

(** C6.  In the sheet that [save_to_excel] writes, the value next to
    "No of compounds downloaded:" is the number of data rows whose Structure
    cell reads "Downloaded", the value next to "No of missing compounds:" is
    the number of data rows with any other Structure cell, and the value
    next to "Total no of compounds:" is their sum, which is the number of
    data rows. *)
Theorem save_to_excel_summary (data : list CompoundRow) (file_path : string)
    (w : World) :
  ∃ ws, sheet_at (save_to_excel data file_path w).2 file_path = Some ws
  ∧ let n := length data in
    let structure (r : nat) := cell_value <$> ws !! (r, 6) in
    let downloaded :=
      length (List.filter
                (λ r, bool_decide (structure r = Some (VStr "Downloaded")))
                (seq 2 n)) in
    let missing :=
      length (List.filter
                (λ r, bool_decide (structure r ≠ Some (VStr "Downloaded")))
                (seq 2 n)) in
    (∀ i row, data !! i = Some row →
       structure (i + 2)
       = Some (Report.stored_value (VStr (structure_status row))))
    ∧ ws !! (n + 3, 1)
      = Some (ReportSpec.plain (VStr "No of compounds downloaded:"))
    ∧ ws !! (n + 3, 2) = Some (ReportSpec.plain (VInt (Z.of_nat downloaded)))
    ∧ ws !! (n + 4, 1)
      = Some (ReportSpec.plain (VStr "No of missing compounds:"))
    ∧ ws !! (n + 4, 2) = Some (ReportSpec.plain (VInt (Z.of_nat missing)))
    ∧ ws !! (n + 5, 1)
      = Some (ReportSpec.plain (VStr "Total no of compounds:"))
    ∧ ws !! (n + 5, 2)
      = Some (ReportSpec.plain (VInt (Z.of_nat (downloaded + missing))))
    ∧ downloaded + missing = n.
Proof.
  destruct (report_written data file_path w) as (ws & _ & Hsheet & Hws).
  exists ws. split; [done|]. intros n structure downloaded missing.
  assert (downloaded = length (List.filter ReportSpec.is_downloaded data))
    as Hd.
  { pose proof (count_structure_cells data ws
                  (λ o : option value,
                     bool_decide (o = Some (VStr "Downloaded")))
                  ReportSpec.is_downloaded Hws) as Hcount.
    apply Hcount. intros row. unfold ReportSpec.is_downloaded.
    destruct (String.eqb_spec (structure_status row) "Downloaded") as [->|Hne].
    - by apply bool_decide_eq_true_2.
    - apply bool_decide_eq_false_2. intros [= Heq]. apply Hne.
      by apply ReportFacts.stored_value_inv in Heq. }
  assert (missing
          = length (List.filter (λ row, negb (ReportSpec.is_downloaded row))
                      data)) as Hm.
  { pose proof (count_structure_cells data ws
                  (λ o : option value,
                     bool_decide (o ≠ Some (VStr "Downloaded")))
                  (λ row, negb (ReportSpec.is_downloaded row)) Hws) as Hcount.
    apply Hcount. intros row. unfold ReportSpec.is_downloaded.
    destruct (String.eqb_spec (structure_status row) "Downloaded") as [->|Hne].
    - apply bool_decide_eq_false_2. intros Hn. by apply Hn.
    - apply bool_decide_eq_true_2. intros [= Heq]. apply Hne.
      by apply ReportFacts.stored_value_inv in Heq. }
  assert (downloaded + missing = n) as Hsum.
  { rewrite Hd, Hm. apply List.filter_length. }
  split_and!.
  - intros i row Hrow. unfold structure.
    by rewrite Hws, (report_cell_data _ _ _ _ Hrow).
  - replace (n + 3) with (length data + 3 + 0) by (subst n; lia).
    by rewrite Hws, report_cell_summary_row by lia.
  - replace (n + 3) with (length data + 3 + 0) by (subst n; lia).
    rewrite Hws, report_cell_summary_row by lia. simpl.
    unfold ReportSpec.downloaded_total. by rewrite Hd.
  - replace (n + 4) with (length data + 3 + 1) by (subst n; lia).
    by rewrite Hws, report_cell_summary_row by lia.
  - replace (n + 4) with (length data + 3 + 1) by (subst n; lia).
    rewrite Hws, report_cell_summary_row by lia. simpl.
    unfold ReportSpec.missing_total. by rewrite Hm.
  - replace (n + 5) with (length data + 3 + 2) by (subst n; lia).
    by rewrite Hws, report_cell_summary_row by lia.
  - replace (n + 5) with (length data + 3 + 2) by (subst n; lia).
    rewrite Hws, report_cell_summary_row by lia. simpl.
    unfold ReportSpec.downloaded_total, ReportSpec.missing_total.
    rewrite Hd, Hm. do 3 f_equal. lia.
  - done.
Qed.

(** Two compounds of three are downloaded in this report. *)
Lemma save_to_excel_summary_witness :
  ∃ ws, sheet_at (save_to_excel Example.rows "out.xlsx" empty_world).2
          "out.xlsx" = Some ws
        ∧ cell_value <$> ws !! (3, 6) = Some (VStr "Not found")
        ∧ cell_value <$> ws !! (6, 2) = Some (VInt 2)
        ∧ cell_value <$> ws !! (7, 2) = Some (VInt 1)
        ∧ cell_value <$> ws !! (8, 2) = Some (VInt 3).
Proof.
  destruct (save_to_excel_summary Example.rows "out.xlsx" empty_world)
    as (ws & Hsheet & H).
  exists ws. split; [exact Hsheet|]. clear Hsheet.
  cbv zeta in H. destruct H as (Hrow & _ & Hd & _ & Hm & _ & Ht & _).
  pose proof (Hrow 0 Example.row1 eq_refl) as H0.
  pose proof (Hrow 1 Example.row2 eq_refl) as H1.
  pose proof (Hrow 2 Example.row3 eq_refl) as H2.
  change (0 + 2) with 2 in H0. change (1 + 2) with 3 in H1.
  change (2 + 2) with 4 in H2.
  cbn [length Example.rows seq List.filter] in Hd, Hm, Ht.
  rewrite H0, H1, H2 in Hd, Hm, Ht.
  split_and!.
  - exact H1.
  - exact (f_equal (fmap cell_value) Hd).
  - exact (f_equal (fmap cell_value) Hm).
  - exact (f_equal (fmap cell_value) Ht).
Defined.

(** C7.  The columns are, in this order, Sl No, Phytochemical Identifier,
    Phytochemical Name, CID, Canonical SMILES, Structure and Hyperlink; the
    [i]-th row of the input (counted from 0) is written in row [i + 2] of
    the sheet, under the header, with the serial number [i + 1] in its first
    column and its six fields after it, each as the workbook gives it back
    ([Report.stored_value]: line ends CR LF and CR read as LF, an empty
    string as an empty cell); a non-empty link is shown as "Link" and kept
    as the target of the cell. *)
Theorem save_to_excel_columns (data : list CompoundRow) (file_path : string)
    (w : World) :
  Report.columns
  = ["Sl No"; "Phytochemical Identifier"; "Phytochemical Name"; "CID";
     "Canonical SMILES"; "Structure"; "Hyperlink"]
  ∧ (∀ i row, data !! i = Some row →
       Report.data_with_slno data !! i
       = Some (VInt (Z.of_nat i + 1) :: Report.row_values row))
  ∧ ∃ ws, sheet_at (save_to_excel data file_path w).2 file_path = Some ws
    ∧ (∀ j name, Report.columns !! j = Some name →
         cell_value <$> ws !! (1, j + 1) = Some (VStr name))
    ∧ (∀ i row, data !! i = Some row →
         let value_at (c : nat) := cell_value <$> ws !! (i + 2, c) in
         value_at 1 = Some (VInt (Z.of_nat i + 1))
         ∧ value_at 2 = Some (Report.stored_value (VStr (identifier row)))
         ∧ value_at 3
           = Some (Report.stored_value (VStr (phytochemical_name row)))
         ∧ value_at 4
           = Some (Report.stored_value (from_option VStr VNone (cid row)))
         ∧ value_at 5 = Some (Report.stored_value (VStr (smiles row)))
         ∧ value_at 6
           = Some (Report.stored_value (VStr (structure_status row)))
         ∧ ws !! (i + 2, 7)
           = Some (if String.eqb (hyperlink row) "" then Report.empty_cell
                   else mkCell (VStr "Link") None
                          (Some (Report.stored_value (VStr (hyperlink row))))
                          "Hyperlink")).
Proof.
  split; [done|]. split.
  - intros i row Hrow. by rewrite ReportFacts.data_with_slno_lookup, Hrow.
  - destruct (report_written data file_path w) as (ws & _ & Hsheet & Hws).
    exists ws. split; [done|]. split.
    + intros j name Hj. rewrite Hws. unfold ReportSpec.report_cell.
      rewrite decide_True by done. replace (j + 1) with (S j) by lia.
      do 7 (destruct j as [|j]; [by injection Hj as <-|]). done.
    + intros i row Hrow value_at. subst value_at. cbv beta.
      rewrite !Hws, !(report_cell_data _ _ _ _ Hrow). by split_and!.
Qed.

(** The second row of the example is written in row 3 with serial
    number 2. *)
Lemma save_to_excel_columns_witness :
  ∃ ws, sheet_at (save_to_excel Example.rows "out.xlsx" empty_world).2
          "out.xlsx" = Some ws
        ∧ cell_value <$> ws !! (1, 6) = Some (VStr "Structure")
        ∧ cell_value <$> ws !! (3, 1) = Some (VInt 2)
        ∧ cell_value <$> ws !! (3, 2) = Some (VStr "IMPHY000003")
        ∧ cell_value <$> ws !! (3, 7) = Some (VStr "Link").
Proof.
  destruct (save_to_excel_columns Example.rows "out.xlsx" empty_world)
    as (_ & _ & ws & Hsheet & Hhead & Hrows).
  exists ws. split; [exact Hsheet|].
  destruct (Hrows 1 Example.row2 eq_refl) as (H1 & H2 & _ & _ & _ & _ & H7).
  split_and!.
  - exact (Hhead 5 "Structure" eq_refl).
  - exact H1.
  - exact H2.
  - exact (f_equal (fmap cell_value) H7).
Defined.

(** C2, as it is stated, fails: for a report of one data row the sheet has
    six rows, not 1 + 1 + 3, and row 3, the row right after the last data
    row, is not a summary row but is empty; the summary starts in row 4. *)
Lemma save_to_excel_rows_counterexample :
  ∃ ws, sheet_at (save_to_excel [Example.row1] "out.xlsx" empty_world).2
          "out.xlsx" = Some ws
        ∧ Report.max_row ws ≠ 1 + 1 + 3
        ∧ cell_value <$> ws !! (1 + 2, 1)
          ≠ Some (VStr "No of compounds downloaded:")
        ∧ cell_value <$> ws !! (1 + 3, 1)
          = Some (VStr "No of compounds downloaded:").
Proof.
  eexists. split; [vm_compute; reflexivity|].
  split_and!; vm_compute; congruence.
Qed.

(** C2, amended.  For an input of [n] rows the sheet has [n + 1 + 3] rows
    that hold a value: the header in row 1, the data in rows 2 to [n + 1]
    and the summary in rows [n + 3] to [n + 5].  Row [n + 2], between the
    last data row and the summary, has no cell at all, so the last row of
    the sheet is row [n + 5]. *)
Theorem save_to_excel_rows (data : list CompoundRow) (file_path : string)
    (w : World) :
  ∃ ws, sheet_at (save_to_excel data file_path w).2 file_path = Some ws
  ∧ let n := length data in
    ReportSpec.used_rows ws = set_seq 1 (n + 1) ∪ set_seq (n + 3) 3
    ∧ size (ReportSpec.used_rows ws) = n + 1 + 3
    ∧ (∀ c, ws !! (n + 2, c) = None)
    ∧ cell_value <$> ws !! (n + 3, 1)
      = Some (VStr "No of compounds downloaded:")
    ∧ cell_value <$> ws !! (n + 4, 1) = Some (VStr "No of missing compounds:")
    ∧ cell_value <$> ws !! (n + 5, 1) = Some (VStr "Total no of compounds:")
    ∧ Report.max_row ws = n + 5.
Proof.
  destruct (report_written data file_path w) as (ws & _ & Hsheet & Hws).
  exists ws. split; [done|]. intros n.
  assert (ReportSpec.used_rows ws = set_seq 1 (n + 1) ∪ set_seq (n + 3) 3)
    as Hused.
  { apply set_eq. intros r. unfold ReportSpec.used_rows.
    rewrite elem_of_map, elem_of_union, !elem_of_set_seq. split.
    - intros ([r' c] & -> & Hin). simpl.
      apply elem_of_dom in Hin as [cell Hcell].
      apply map_lookup_filter_Some in Hcell as [Hcell _].
      rewrite Hws in Hcell.
      destruct (report_cell_Some data r' c) as [?|?]; [by eexists| |];
        subst n; lia.
    - intros Hr.
      destruct (report_cell_first_column data r) as (cell & Hcell & Hval);
        [subst n; lia|].
      exists (r, 1). split; [done|]. apply elem_of_dom. exists cell.
      apply map_lookup_filter_Some. by rewrite Hws. }
  split_and!.
  - done.
  - rewrite Hused, size_union, !size_set_seq; [lia|].
    intros r. rewrite !elem_of_set_seq. lia.
  - intros c. rewrite Hws.
    destruct (ReportSpec.report_cell data (n + 2) c) eqn:Hcell; [|done].
    destruct (report_cell_Some data (n + 2) c) as [?|?]; [by eexists| |];
      subst n; lia.
  - replace (n + 3) with (length data + 3 + 0) by (subst n; lia).
    by rewrite Hws, report_cell_summary_row by lia.
  - replace (n + 4) with (length data + 3 + 1) by (subst n; lia).
    by rewrite Hws, report_cell_summary_row by lia.
  - replace (n + 5) with (length data + 3 + 2) by (subst n; lia).
    by rewrite Hws, report_cell_summary_row by lia.
  - apply ReportFacts.max_row_eq.
    + exists 1. rewrite Hws.
      replace (n + 5) with (length data + 3 + 2) by (subst n; lia).
      by rewrite report_cell_summary_row by lia.
    + intros r c. rewrite Hws. intros [?|?]%report_cell_Some; subst n; lia.
Qed.

(** ** The listing URL *)

(** C8, as it is stated, fails: a [#] in the plant name has to be
    percent-encoded and reaches the URL as it is. *)
Lemma plant_page_url_counterexample :
  UrlSpec.unreserved "#" = false
  ∧ plant_page_url "Tulsi #2" = plant_page_base +:+ "Tulsi%20#2"
  ∧ plant_page_base +:+ UrlSpec.urlencode_spec "Tulsi #2"
    = plant_page_base +:+ "Tulsi%20%232"
  ∧ plant_page_url "Tulsi #2"
    ≠ plant_page_base +:+ UrlSpec.urlencode_spec "Tulsi #2".
Proof. split_and!; [reflexivity..|vm_compute; discriminate]. Qed.

Lemma replace_space_plain (s : string) :
  UrlSpec.plain_name s = true →
  PyStr.replace_space s = UrlSpec.urlencode_spec s.
Proof.
  unfold UrlSpec.plain_name. induction s as [|a s IH]; [done|]. simpl.
  intros [Ha Hs]%andb_prop. rewrite (IH Hs).
  destruct (Ascii.eqb a " ") eqn:Hsp.
  - apply Ascii.eqb_eq in Hsp as ->. reflexivity.
  - rewrite orb_false_r in Ha. by rewrite Ha.
Qed.

(** C8, amended.  The listing URL is the fixed base path followed by the
    plant name in which every space is replaced by [%20] and every other
    character is kept as it is; for a name made of unreserved characters
    and spaces this is the URL-encoded name. *)
Theorem plant_page_url_spec (plant_name : string) :
  plant_page_url plant_name
  = plant_page_base +:+ PyStr.replace_space plant_name
  ∧ PyStr.replace_space "" = ""
  ∧ (∀ a s, PyStr.replace_space (String a s)
            = (if Ascii.eqb a " " then "%20" else String a "")
              +:+ PyStr.replace_space s)
  ∧ (UrlSpec.plain_name plant_name = true →
     plant_page_url plant_name
     = plant_page_base +:+ UrlSpec.urlencode_spec plant_name).
Proof.
  split_and!; try done.
  - intros a s. simpl. by destruct (Ascii.eqb a " ").
  - intros Hplain. unfold plant_page_url. by rewrite replace_space_plain.
Qed.

(** The name of a plant, a binomial, is encoded as the specification asks. *)
Lemma plant_page_url_spec_witness :
  plant_page_url "Ocimum sanctum"
  = plant_page_base +:+ UrlSpec.urlencode_spec "Ocimum sanctum"
  ∧ plant_page_url "Ocimum sanctum"
    = "https://cb.imsc.res.in/imppat/phytochemical/Ocimum%20sanctum".
Proof.
  split.
  - apply (proj2 (proj2 (proj2 (plant_page_url_spec "Ocimum sanctum")))).
    reflexivity.
  - reflexivity.
Defined.

(** ** The rows of [search_plant] *)

Section Rows.
Variable http_get : string → Response.
Variable html_parser : string → list Soup.node.

Lemma smiles_of_sentinel (c : string) :
  status_code (http_get (pubchem_url c)) ≠ 200%Z →
  smiles_of http_get c = "N/A".
Proof.
  intros Hst%Z.eqb_neq. unfold smiles_of.
  rewrite get_smiles_from_pubchem_run. simpl. by rewrite Hst.
Qed.

Lemma status_of_cases (identifier : string) :
  status_of http_get identifier
  = if (status_code (http_get (structure_url identifier)) =? 200)%Z
    then "Downloaded" else "Not found".
Proof.
  unfold status_of. rewrite download_structure_run. simpl.
  by destruct (_ =? _)%Z.
Qed.

(** What is known of a row that [compound_of] builds. *)
Lemma compound_of_Some (row : Soup.node) (r : CompoundRow) :
  compound_of http_get html_parser row = Some r →
  ∃ c, cid_of http_get html_parser (row_identifier row) = Some c
       ∧ r = mkRow (row_identifier row) (row_name row) (Some c)
               (smiles_of http_get c)
               (status_of http_get (row_identifier row))
               (if String.eqb (status_of http_get (row_identifier row))
                              "Not found"
                then detailed_page_base +:+ row_identifier row else "").
Proof.
  unfold compound_of.
  destruct (cid_of _ _ _) as [c|]; [|done]. intros [= <-]. by exists c.
Qed.

Lemma omap_compound_filter (rows : list Soup.node) :
  map (λ r, (identifier r, phytochemical_name r))
      (omap (compound_of http_get html_parser) rows)
  = map (λ row, (row_identifier row, row_name row))
        (List.filter (cid_found http_get html_parser) rows).
Proof.
  induction rows as [|row rows IH]; [done|].
  cbn [omap list_omap List.filter].
  unfold cid_found at 1, compound_of at 1.
  destruct (cid_of http_get html_parser (row_identifier row)) as [c|].
  - rewrite bool_decide_eq_true_2 by eauto. cbn [map]. by rewrite IH.
  - rewrite bool_decide_eq_false_2 by (by intros [? ?]). done.
Qed.

Lemma filter_length_all {A} (p : A → bool) (l : list A) :
  Forall (λ x, p x = true) l → length (List.filter p l) = length l.
Proof.
  induction 1 as [|x l Hx _ IH]; [done|]. simpl. rewrite Hx. simpl. lia.
Qed.

Lemma elem_of_omap_compound (rows : list Soup.node) (r : CompoundRow) :
  r ∈ omap (compound_of http_get html_parser) rows →
  ∃ row, row ∈ rows ∧ compound_of http_get html_parser row = Some r.
Proof. intros (row & ? & ?)%list_elem_of_omap. eauto. Qed.

End Rows.

(** C1, as it is stated, fails: the listing of the example has three
    well-formed rows and the detail page of the second one does not answer;
    [search_plant] returns two rows, the second compound is left out. *)
Lemma search_plant_rows_counterexample :
  let response := Example.http_get (plant_page_url "Ocimum sanctum") in
  let soup := BeautifulSoup Example.html_parser (content response) in
  let result :=
    (search_plant Example.http_get Example.html_parser "Ocimum sanctum"
       "out/3d_structure" empty_world).1 in
  status_code response = 200%Z
  ∧ map row_identifier (well_formed_rows soup)
    = ["IMPHY000001"; "IMPHY000002"; "IMPHY000003"]
  ∧ cid_of Example.http_get Example.html_parser "IMPHY000002" = None
  ∧ result = [Example.row1; Example.row2]
  ∧ length result ≠ length (well_formed_rows soup).
Proof. split_and!; [reflexivity..|vm_compute; discriminate]. Qed.

(** C1, amended.  When the listing page answers 200, [search_plant] returns
    one row for every well-formed row of the listing whose CID lookup
    succeeds, in document order: at most as many rows as the listing has
    well-formed rows, and exactly as many when every CID lookup succeeds.
    A failed SMILES lookup or structure download leaves the row in the
    result with the sentinel ["N/A"] or ["Not found"]; a row whose CID
    lookup returns [None] is left out. *)
Theorem search_plant_rows (http_get : string → Response)
    (html_parser : string → list Soup.node) (plant_name folder : string)
    (w : World) :
  let response := http_get (plant_page_url plant_name) in
  let soup := BeautifulSoup html_parser (content response) in
  let listed := well_formed_rows soup in
  let result := (search_plant http_get html_parser plant_name folder w).1 in
  status_code response = 200%Z →
  result = omap (compound_of http_get html_parser) listed
  ∧ map (λ r, (identifier r, phytochemical_name r)) result
    = map (λ row, (row_identifier row, row_name row))
          (List.filter (cid_found http_get html_parser) listed)
  ∧ length result ≤ length listed
  ∧ (Forall (λ row, cid_found http_get html_parser row = true) listed →
     length result = length listed)
  ∧ Forall (λ r, ∃ c,
              cid_of http_get html_parser (identifier r) = Some c
              ∧ cid r = Some c
              ∧ (status_code (http_get (pubchem_url c)) ≠ 200%Z →
                 smiles r = "N/A")
              ∧ (status_code (http_get (structure_url (identifier r)))
                 ≠ 200%Z →
                 structure_status r = "Not found")) result.
Proof.
  intros response soup listed result Hst. subst result.
  rewrite search_plant_result. cbv zeta. fold response. rewrite Hst.
  change (negb (200 =? 200)%Z) with false. cbv iota.
  fold soup. fold listed.
  assert (length (omap (compound_of http_get html_parser) listed)
          = length (List.filter (cid_found http_get html_parser) listed))
    as Hlen.
  { rewrite <- (length_map (λ r, (identifier r, phytochemical_name r))).
    rewrite omap_compound_filter. by rewrite length_map. }
  split_and!.
  - done.
  - apply omap_compound_filter.
  - rewrite Hlen. apply List.filter_length_le.
  - intros Hall. rewrite Hlen. by apply filter_length_all.
  - apply Forall_forall. intros r Hr.
    apply elem_of_omap_compound in Hr as (row & _ & Hrow).
    apply compound_of_Some in Hrow as (c & Hc & ->). simpl.
    exists c. split_and!; try done.
    + apply smiles_of_sentinel.
    + intros Hs%Z.eqb_neq. by rewrite status_of_cases, Hs.
Qed.

(** In the example the third compound has neither a SMILES string nor a
    structure file and is still listed. *)
Lemma search_plant_rows_witness :
  map (λ r, (identifier r, phytochemical_name r))
      (search_plant Example.http_get Example.html_parser "Ocimum sanctum"
         "out/3d_structure" empty_world).1
  = [("IMPHY000001", "Eugenol"); ("IMPHY000003", "Linalool")].
Proof.
  etrans.
  - apply (search_plant_rows Example.http_get Example.html_parser
             "Ocimum sanctum" "out/3d_structure" empty_world).
    reflexivity.
  - reflexivity.
Defined.

Lemma digits_no_cr (c : string) :
  PyStr.all_chars PyStr.is_digit c = true →
  PyStr.all_chars (λ a, negb (Ascii.eqb a Report.CR)) c = true.
Proof.
  induction c as [|a c IH]; [done|]. simpl.
  intros [Ha Hc]%andb_prop. rewrite (IH Hc), andb_true_r.
  destruct (Ascii.eqb_spec a Report.CR) as [->|]; [|done].
  vm_compute in Ha. discriminate.
Qed.

(** C9.  Every row that [search_plant] returns has a CID, a non-empty string
    of digits, and so has every data row of the report that is written from
    these rows.  A listing row whose CID lookup fails is dropped right after
    the request to its detail page: no request is sent to PubChem or for its
    structure file, no file is written and no row is added. *)
Theorem search_plant_cid (http_get : string → Response)
    (html_parser : string → list Soup.node) (plant_name folder : string)
    (w : World) :
  let result := (search_plant http_get html_parser plant_name folder w).1 in
  Forall (λ r, ∃ c, cid r = Some c ∧ c ≠ ""
                    ∧ PyStr.all_chars PyStr.is_digit c = true) result
  ∧ (∀ file_path w',
       ∃ ws, sheet_at (save_to_excel result file_path w').2 file_path
             = Some ws
             ∧ ∀ i r, result !! i = Some r →
                 ∃ c, c ≠ ""
                      ∧ cell_value <$> ws !! (i + 2, 4) = Some (VStr c))
  ∧ (∀ row plant_info w0,
       well_formed row = true →
       cid_of http_get html_parser (row_identifier row) = None →
       process_row http_get html_parser folder row plant_info w0
       = (plant_info,
          mkWorld (files w0)
            (trace w0 ++ [Get (detailed_page_base +:+ row_identifier row);
                          Sleep 2]))).
Proof.
  intros result.
  assert (Forall (λ r, ∃ c, cid r = Some c ∧ c ≠ ""
                           ∧ PyStr.all_chars PyStr.is_digit c = true) result)
    as Hcid.
  { subst result. rewrite search_plant_result. cbv zeta.
    destruct (negb _); [by apply Forall_nil|].
    apply Forall_forall. intros r Hr.
    apply elem_of_omap_compound in Hr as (row & _ & Hrow).
    apply compound_of_Some in Hrow as (c & Hc & ->). simpl.
    exists c. split; [done|]. by eapply cid_of_digits. }
  split_and!.
  - done.
  - intros file_path w'.
    destruct (report_written result file_path w') as (ws & _ & Hsheet & Hws).
    exists ws. split; [done|]. intros i r Hr.
    rewrite Forall_forall in Hcid.
    destruct (Hcid r) as (c & Hc & Hne & Hdigits).
    { apply list_elem_of_lookup. by exists i. }
    exists c. split; [done|].
    rewrite Hws, (report_cell_data _ _ _ _ Hr).
    cbn [ReportSpec.data_cell]. rewrite Hc.
    change (cell_value <$> Some (Report.new_cell (from_option VStr VNone (Some c))))
      with (Some (Report.stored_value (VStr c))).
    rewrite ReportFacts.stored_value_plain; [done..|].
    by apply digits_no_cr.
  - intros row plant_info w0. apply process_row_no_cid.
Qed.

(** The second listing row of the example has no CID: its detail page is
    requested and nothing else happens. *)
Lemma search_plant_cid_witness :
  process_row Example.http_get Example.html_parser "out/3d_structure"
    (Soup.Tag "tr" [Example.td "Ocimum sanctum"; Example.td "leaf";
                    Example.td "IMPHY000002"; Example.td "Carvacrol"])
    [Example.row1] empty_world
  = ([Example.row1],
     mkWorld ∅ [Get (detailed_page_base +:+ "IMPHY000002"); Sleep 2]).
Proof.
  apply (proj2 (proj2 (search_plant_cid Example.http_get Example.html_parser
                         "Ocimum sanctum" "out/3d_structure" empty_world))).
  - reflexivity.
  - reflexivity.
Defined.

Lemma report_cell_link (data : list CompoundRow) (r c : nat) (cell : Cell) :
  ReportSpec.report_cell data r c = Some cell →
  cell_style cell = "Hyperlink" →
  c = 7 ∧ ∃ row, data !! (r - 2) = Some row ∧ 2 ≤ r ∧ hyperlink row ≠ "".
Proof.
  intros Hcell Hstyle.
  destruct (report_cell_Some data r c) as [Hr|Hr]; [by eexists| |].
  - destruct (decide (r = 1)) as [->|Hr1].
    + unfold ReportSpec.report_cell in Hcell. simpl in Hcell.
      destruct c as [|j]; [done|]. simpl in Hcell.
      destruct (Report.columns !! j); simpl in Hcell; by simplify_eq.
    + destruct (lookup_lt_is_Some_2 data (r - 2)) as [row Hrow]; [lia|].
      replace r with (r - 2 + 2) in Hcell by lia.
      rewrite (report_cell_data _ _ _ _ Hrow) in Hcell.
      destruct c as [|c]; [done|].
      do 6 (destruct c as [|c];
              [simpl in Hcell; injection Hcell as <-; simpl in Hstyle;
               discriminate|]).
      destruct c as [|c]; [|done]. split; [done|].
      exists row. split_and!; [done|lia|].
      intros Hh. simpl in Hcell. rewrite Hh in Hcell. by simplify_eq.
  - assert (∃ k, k < 3 ∧ r = length data + 3 + k) as (k & Hk & ->)
      by (exists (r - (length data + 3)); lia).
    rewrite report_cell_summary_row in Hcell by done.
    destruct k as [|[|[|k]]]; try lia;
      destruct c as [|[|[|c]]]; simpl in Hcell; try done;
      injection Hcell as <-; simpl in Hstyle; discriminate.
Qed.

(** C10.  In every row that [search_plant] returns the link is non-empty
    exactly when the structure status is ["Not found"], and a non-empty link
    is the URL of the detail page of the row's identifier.  In the report
    written from these rows a cell that is styled as a hyperlink is in the
    link column of a data row whose Structure cell reads ["Not found"], not
    ["Downloaded"]. *)
Theorem search_plant_hyperlink (http_get : string → Response)
    (html_parser : string → list Soup.node) (plant_name folder : string)
    (w : World) :
  let result := (search_plant http_get html_parser plant_name folder w).1 in
  Forall (λ r, (hyperlink r ≠ "" ↔ structure_status r = "Not found")
               ∧ (hyperlink r ≠ "" →
                  hyperlink r = detailed_page_base +:+ identifier r)) result
  ∧ (∀ file_path w',
       ∃ ws, sheet_at (save_to_excel result file_path w').2 file_path
             = Some ws
             ∧ ∀ r c cell,
                 ws !! (r, c) = Some cell →
                 cell_style cell = "Hyperlink" →
                 c = 7
                 ∧ cell_value cell = VStr "Link"
                 ∧ cell_value <$> ws !! (r, 6) = Some (VStr "Not found")
                 ∧ cell_value <$> ws !! (r, 6) ≠ Some (VStr "Downloaded")).
Proof.
  intros result.
  assert (Forall (λ r, (hyperlink r ≠ "" ↔ structure_status r = "Not found")
                       ∧ (hyperlink r ≠ "" →
                          hyperlink r = detailed_page_base +:+ identifier r))
            result) as Hlink.
  { subst result. rewrite search_plant_result. cbv zeta.
    destruct (negb _); [by apply Forall_nil|].
    apply Forall_forall. intros r Hr.
    apply elem_of_omap_compound in Hr as (row & _ & Hrow).
    apply compound_of_Some in Hrow as (c & Hc & ->). simpl.
    destruct (String.eqb_spec (status_of http_get (row_identifier row))
                "Not found") as [Heq|Hne].
    - split; [|done]. split; [done|]. intros _. discriminate.
    - split; [|done]. split; [done|]. intros Heq. by destruct Hne. }
  split; [done|]. intros file_path w'.
  destruct (report_written result file_path w') as (ws & _ & Hsheet & Hws).
  exists ws. split; [done|]. intros r c cell Hcell Hstyle.
  rewrite Hws in Hcell.
  destruct (report_cell_link _ _ _ _ Hcell Hstyle)
    as (-> & row & Hrow & Hr & Hh).
  rewrite Forall_forall in Hlink.
  destruct (Hlink row) as [[Hnf _] _].
  { apply list_elem_of_lookup. by eexists. }
  specialize (Hnf Hh).
  replace r with (r - 2 + 2) in Hcell |- * by lia.
  rewrite Hws, (report_cell_data _ _ _ _ Hrow).
  rewrite (report_cell_data _ _ _ _ Hrow) in Hcell. simpl in Hcell |- *.
  rewrite Hnf. simpl.
  destruct (String.eqb_spec (hyperlink row) "") as [?|_]; [done|].
  injection Hcell as <-. by split_and!.
Qed.

(** The link of the third compound of the example, whose structure file is
    missing, is the only one. *)
Lemma search_plant_hyperlink_witness :
  ∃ ws, sheet_at (save_to_excel
                    (search_plant Example.http_get Example.html_parser
                       "Ocimum sanctum" "out/3d_structure" empty_world).1
                    "out.xlsx" empty_world).2 "out.xlsx" = Some ws
        ∧ cell_style <$> ws !! (3, 7) = Some "Hyperlink"
        ∧ cell_value <$> ws !! (3, 6) = Some (VStr "Not found").
Proof.
  destruct (proj2 (search_plant_hyperlink Example.http_get Example.html_parser
                     "Ocimum sanctum" "out/3d_structure" empty_world)
              "out.xlsx" empty_world) as (ws & Hsheet & Hlinks).
  exists ws. split; [exact Hsheet|].
  assert (ws !! (3, 7)
          = Some (mkCell (VStr "Link") None
                    (Some (VStr (detailed_page_base +:+ "IMPHY000003")))
                    "Hyperlink")) as Hcell.
  { vm_compute in Hsheet. injection Hsheet as <-. vm_compute. reflexivity. }
  split.
  - by rewrite Hcell.
  - apply (Hlinks 3 7 _ Hcell). reflexivity.
Defined.

(** ** The effects of [search_plant] *)

Section SearchEffects.
Variable http_get : string → Response.
Variable html_parser : string → list Soup.node.

Lemma world_eta (w : World) : mkWorld (files w) (trace w) = w.
Proof. by destruct w. Qed.

(** One pass of the loop body: the row it may append, the file it may
    write and the requests it sends. *)
Lemma process_row_run (folder : string) (row : Soup.node)
    (plant_info : list CompoundRow) (w : World) :
  process_row http_get html_parser folder row plant_info w
  = if well_formed row then
      (plant_info ++ option_list (compound_of http_get html_parser row),
       mkWorld (row_files http_get html_parser folder (files w) row)
               (trace w ++ row_events http_get html_parser row))
    else (plant_info, w).
Proof.
  destruct (well_formed row) eqn:Hwf.
  - destruct (cid_of http_get html_parser (row_identifier row)) as [c|] eqn:Hc.
    + pose proof (cid_of_digits _ _ _ _ Hc) as [Hne _].
      unfold process_row, bind, ret. unfold well_formed in Hwf. rewrite Hwf.
      fold (row_identifier row). fold (row_name row).
      unfold compound_of, row_files, row_events, downloads. rewrite Hc.
      unfold cid_of in Hc. rewrite extract_cid_run in Hc |- *.
      simpl in Hc. cbv zeta. rewrite Hc.
      replace (truthy (VStr c)) with true by (by destruct c).
      rewrite get_smiles_from_pubchem_run. cbv zeta.
      rewrite download_structure_run. cbv zeta.
      unfold smiles_of, status_of.
      rewrite get_smiles_from_pubchem_run, download_structure_run.
      cbn [fst snd files trace]. rewrite <- !app_assoc.
      rewrite bool_decide_eq_true_2 by eauto. cbn [andb].
      by destruct (status_code (http_get (structure_url _)) =? 200)%Z.
    + rewrite (process_row_no_cid _ _ _ _ _ _ Hwf Hc).
      unfold compound_of, row_files, row_events, downloads. rewrite Hc.
      rewrite bool_decide_eq_false_2 by (by intros [? ?]).
      by rewrite !app_nil_r.
  - unfold process_row. unfold well_formed in Hwf. by rewrite Hwf.
Qed.

Lemma for_rows_run (folder : string) (rows : list Soup.node)
    (plant_info : list CompoundRow) (w : World) :
  for_rows http_get html_parser folder rows plant_info w
  = (plant_info ++ omap (compound_of http_get html_parser)
                        (List.filter well_formed rows),
     mkWorld
       (foldl (row_files http_get html_parser folder) (files w)
              (List.filter well_formed rows))
       (trace w ++ flat_map (row_events http_get html_parser)
                            (List.filter well_formed rows))).
Proof.
  revert plant_info w. induction rows as [|row rows IH]; intros acc w.
  - simpl. unfold ret. by rewrite !app_nil_r, world_eta.
  - simpl. unfold bind. rewrite process_row_run.
    destruct (well_formed row).
    + rewrite IH. cbn [files trace omap list_omap foldl flat_map].
      rewrite <- !app_assoc. by destruct (compound_of _ _ row).
    + by rewrite IH.
Qed.

(** All of [search_plant]: its rows, the files it leaves and its trace. *)
Lemma search_plant_run (plant_name folder : string) (w : World) :
  search_plant http_get html_parser plant_name folder w
  = let response := http_get (plant_page_url plant_name) in
    let listed :=
      if negb (status_code response =? 200)%Z then []
      else well_formed_rows (BeautifulSoup html_parser (content response)) in
    (omap (compound_of http_get html_parser) listed,
     mkWorld
       (foldl (row_files http_get html_parser folder) (files w) listed)
       (trace w ++ [Get (plant_page_url plant_name); Sleep 2]
        ++ flat_map (row_events http_get html_parser) listed)).
Proof.
  unfold search_plant, bind, requests_get, sleep, emit, ret.
  simpl. rewrite <- app_assoc.
  destruct (negb _); [done|].
  unfold well_formed_rows, listing_rows.
  destruct (Soup.find "table" _) as [table|]; [|done].
  rewrite for_rows_run. cbn [files trace]. by rewrite <- !app_assoc.
Qed.

End SearchEffects.

Section SearchFiles.
Variable http_get : string → Response.
Variable html_parser : string → list Soup.node.
Variable folder : string.

Lemma foldl_row_files_other (rows : list Soup.node) (fs : gmap string File)
    (p : string) :
  (∀ row, row ∈ rows → downloads http_get html_parser row = true →
          structure_path folder (row_identifier row) ≠ p) →
  foldl (row_files http_get html_parser folder) fs rows !! p = fs !! p.
Proof.
  revert fs. induction rows as [|row rows IH]; intros fs Hrows; [done|].
  simpl. rewrite IH.
  - unfold row_files. destruct (downloads _ _ row) eqn:Hd; [|done].
    apply lookup_insert_ne. apply Hrows; [left|done].
  - intros row' Hin. apply Hrows. by right.
Qed.

Lemma foldl_row_files_kept (rows : list Soup.node) (fs : gmap string File)
    (p b : string) :
  fs !! p = Some (Bytes b) →
  (∀ row, row ∈ rows → downloads http_get html_parser row = true →
          structure_path folder (row_identifier row) = p →
          content (http_get (structure_url (row_identifier row))) = b) →
  foldl (row_files http_get html_parser folder) fs rows !! p
  = Some (Bytes b).
Proof.
  revert fs. induction rows as [|row rows IH]; intros fs Hfs Hrows; [done|].
  simpl. apply IH.
  - unfold row_files. destruct (downloads _ _ row) eqn:Hd; [|done].
    destruct (decide (structure_path folder (row_identifier row) = p))
      as [Hp|Hp].
    + rewrite Hp, lookup_insert_eq. do 2 f_equal.
      apply Hrows; [left|done..].
    + by rewrite lookup_insert_ne.
  - intros row' Hin. apply Hrows. by right.
Qed.

Lemma foldl_row_files_written (rows : list Soup.node) (fs : gmap string File)
    (row0 : Soup.node) :
  let p := structure_path folder (row_identifier row0) in
  let b := content (http_get (structure_url (row_identifier row0))) in
  row0 ∈ rows → downloads http_get html_parser row0 = true →
  (∀ row, row ∈ rows → downloads http_get html_parser row = true →
          structure_path folder (row_identifier row) = p →
          content (http_get (structure_url (row_identifier row))) = b) →
  foldl (row_files http_get html_parser folder) fs rows !! p
  = Some (Bytes b).
Proof.
  intros p b Hin Hd0 Hrows. revert fs.
  induction rows as [|row rows IH]; intros fs; [by apply elem_of_nil in Hin|].
  simpl. apply elem_of_cons in Hin as [<-|Hin].
  - apply foldl_row_files_kept.
    + unfold row_files. rewrite Hd0. apply lookup_insert_eq.
    + intros row' Hin'. apply Hrows. by right.
  - apply IH; [done|]. intros row' Hin'. apply Hrows. by right.
Qed.

(** A listing row and the row it contributes to the result. *)
Lemma compound_of_fields (row : Soup.node) (r : CompoundRow) :
  compound_of http_get html_parser row = Some r →
  identifier r = row_identifier row
  ∧ phytochemical_name r = row_name row
  ∧ structure_status r
    = (if (status_code (http_get (structure_url (row_identifier row)))
           =? 200)%Z
       then "Downloaded" else "Not found")
  ∧ downloads http_get html_parser row
    = (status_code (http_get (structure_url (row_identifier row))) =? 200)%Z
  ∧ ∃ c, cid_of http_get html_parser (row_identifier row) = Some c
         ∧ cid r = Some c
         ∧ smiles r
           = (if (status_code (http_get (pubchem_url c)) =? 200)%Z
              then PyStr.strip (text (http_get (pubchem_url c)))
              else "N/A").
Proof.
  intros (c & Hc & ->)%compound_of_Some. simpl.
  rewrite status_of_cases. unfold downloads. rewrite Hc.
  rewrite bool_decide_eq_true_2 by eauto.
  split_and!; try done. exists c. split_and!; try done.
  unfold smiles_of. rewrite get_smiles_from_pubchem_run. simpl.
  by destruct (_ =? _)%Z.
Qed.

Lemma downloads_compound (row : Soup.node) :
  downloads http_get html_parser row = true →
  ∃ r, compound_of http_get html_parser row = Some r
       ∧ identifier r = row_identifier row
       ∧ structure_status r = "Downloaded".
Proof.
  unfold downloads. intros [Hcid Hst]%andb_prop.
  apply bool_decide_eq_true in Hcid as [c Hc].
  destruct (compound_of http_get html_parser row) as [r|] eqn:Hr.
  - exists r. destruct (compound_of_fields _ _ Hr) as (Hi & _ & Hs & _).
    rewrite Hst in Hs. done.
  - unfold compound_of in Hr. by rewrite Hc in Hr.
Qed.

End SearchFiles.

(** X1.  When the listing page does not answer 200, [search_plant] returns
    no row after that single request and its delay: no detail page is
    asked for and the files are as they were. *)
Theorem search_plant_unavailable (http_get : string → Response)
    (html_parser : string → list Soup.node) (plant_name folder : string)
    (w : World) :
  status_code (http_get (plant_page_url plant_name)) ≠ 200%Z →
  search_plant http_get html_parser plant_name folder w
  = ([], mkWorld (files w)
           (trace w ++ [Get (plant_page_url plant_name); Sleep 2])).
Proof.
  intros Hst%Z.eqb_neq. rewrite search_plant_run. cbv zeta. by rewrite Hst.
Qed.

Lemma search_plant_unavailable_witness :
  search_plant Example.http_get Example.html_parser "Azadirachta indica"
    "out/3d_structure" empty_world
  = ([], mkWorld ∅ [Get (plant_page_base +:+ "Azadirachta%20indica");
                    Sleep 2]).
Proof.
  apply (search_plant_unavailable Example.http_get Example.html_parser
           "Azadirachta indica" "out/3d_structure" empty_world).
  vm_compute. discriminate.
Defined.

(** X2.  When the listing page answers 200 but has no table, or its table
    has no row with four cells after its first row, [search_plant] returns
    no row and sends no further request.  The first row of the table is not
    looked at, whatever it holds. *)
Theorem search_plant_no_rows (http_get : string → Response)
    (html_parser : string → list Soup.node) (plant_name folder : string)
    (w : World) :
  let response := http_get (plant_page_url plant_name) in
  let soup := BeautifulSoup html_parser (content response) in
  status_code response = 200%Z →
  Soup.find "table" soup = None
  ∨ (∃ table, Soup.find "table" soup = Some table
              ∧ Forall (λ row, length (Soup.find_all "td" row) ≤ 3)
                       (drop 1 (Soup.find_all "tr" table))) →
  search_plant http_get html_parser plant_name folder w
  = ([], mkWorld (files w)
           (trace w ++ [Get (plant_page_url plant_name); Sleep 2])).
Proof.
  intros response soup Hst Hrows. rewrite search_plant_run. cbv zeta.
  fold response. rewrite Hst. change (negb (200 =? 200)%Z) with false.
  cbv iota. fold soup.
  assert (well_formed_rows soup = []) as ->; [|done].
  unfold well_formed_rows, listing_rows.
  destruct Hrows as [->|(table & -> & Hall)]; [done|].
  induction Hall as [|row rows Hrow _ IH]; [done|]. simpl.
  unfold well_formed at 1.
  destruct (Nat.ltb_spec 3 (length (Soup.find_all "td" row))); [lia|done].
Qed.

Lemma search_plant_no_rows_witness :
  search_plant Example2.http_get Example2.html_parser "Thymus vulgaris"
    "out/3d_structure" empty_world
  = ([], mkWorld ∅ [Get (plant_page_base +:+ "Thymus%20vulgaris"); Sleep 2]).
Proof.
  apply (search_plant_no_rows Example2.http_get Example2.html_parser
           "Thymus vulgaris" "out/3d_structure" empty_world).
  - reflexivity.
  - right. eexists. split; [reflexivity|]. apply Forall_nil_2.
Defined.

(** X3.  The requests of [search_plant] are sent one compound after the
    other, in the order of the listing: the listing page and a delay, then
    for every well-formed row its detail page and a delay, followed, when a
    CID is found, by the PubChem request, a delay and the request for the
    structure file, after which no delay is made. *)
Theorem search_plant_trace (http_get : string → Response)
    (html_parser : string → list Soup.node) (plant_name folder : string)
    (w : World) :
  let response := http_get (plant_page_url plant_name) in
  let listed :=
    if (status_code response =? 200)%Z
    then well_formed_rows (BeautifulSoup html_parser (content response))
    else [] in
  trace (search_plant http_get html_parser plant_name folder w).2
  = trace w ++ [Get (plant_page_url plant_name); Sleep 2]
    ++ flat_map
         (λ row,
            [Get (detailed_page_base +:+ row_identifier row); Sleep 2]
            ++ match cid_of http_get html_parser (row_identifier row) with
               | Some c => [Get (pubchem_url c); Sleep 2;
                            Get (structure_url (row_identifier row))]
               | None => []
               end) listed.
Proof.
  intros response listed. rewrite search_plant_run. cbv zeta.
  fold response. subst listed. simpl. by destruct (_ =? _)%Z.
Qed.

(** X4.  [search_plant] writes nothing but the structure files of the rows
    it returns as downloaded: every other path of the file system holds
    what it held before. *)
Theorem search_plant_files_kept (http_get : string → Response)
    (html_parser : string → list Soup.node) (plant_name folder : string)
    (w : World) (p : string) :
  let result := (search_plant http_get html_parser plant_name folder w).1 in
  let w' := (search_plant http_get html_parser plant_name folder w).2 in
  (∀ r, r ∈ result → structure_status r = "Downloaded" →
        structure_path folder (identifier r) ≠ p) →
  files w' !! p = files w !! p.
Proof.
  intros result w'. subst result w'. rewrite search_plant_run. cbv zeta.
  cbn [fst snd files]. intros Hp. apply foldl_row_files_other.
  intros row Hin Hd.
  destruct (downloads_compound _ _ _ Hd) as (r & Hr & Hi & Hs).
  rewrite <- Hi. apply Hp; [|done].
  apply list_elem_of_omap. eauto.
Qed.

Lemma search_plant_files_kept_witness :
  files (search_plant Example.http_get Example.html_parser "Ocimum sanctum"
           "out/3d_structure"
           (mkWorld {["notes.txt" := Bytes "keep"]} [])).2 !! "notes.txt"
  = Some (Bytes "keep").
Proof.
  etrans.
  - apply (search_plant_files_kept Example.http_get Example.html_parser
             "Ocimum sanctum" "out/3d_structure"
             (mkWorld {["notes.txt" := Bytes "keep"]} []) "notes.txt").
    intros r Hr Hs.
    assert (r = Example.row1 ∨ r = Example.row2) as [-> | ->].
    { change (r ∈ [Example.row1; Example.row2]) in Hr.
      apply elem_of_cons in Hr as [->|Hr]; [by left|].
      apply list_elem_of_singleton in Hr. by right. }
    + vm_compute. discriminate.
    + vm_compute. discriminate.
  - reflexivity.
Defined.

(** X5.  After [search_plant] the structure file of every row returned as
    downloaded holds the bytes that the structure URL of its identifier
    answers, provided that no other returned row is saved under the same
    path. *)
Theorem search_plant_files_saved (http_get : string → Response)
    (html_parser : string → list Soup.node) (plant_name folder : string)
    (w : World) (r : CompoundRow) :
  let result := (search_plant http_get html_parser plant_name folder w).1 in
  let w' := (search_plant http_get html_parser plant_name folder w).2 in
  r ∈ result → structure_status r = "Downloaded" →
  (∀ r', r' ∈ result →
         structure_path folder (identifier r')
         = structure_path folder (identifier r) →
         identifier r' = identifier r) →
  files w' !! structure_path folder (identifier r)
  = Some (Bytes (content (http_get (structure_url (identifier r))))).
Proof.
  intros result w'. subst result w'. rewrite search_plant_run. cbv zeta.
  cbn [fst snd files]. intros Hr Hs Hunique.
  apply list_elem_of_omap in Hr as (row & Hin & Hrow).
  destruct (compound_of_fields _ _ _ _ Hrow) as (Hi & _ & Hst & Hd & _).
  rewrite Hi in *.
  apply foldl_row_files_written; [done|..].
  - rewrite Hd. rewrite Hs in Hst.
    destruct (status_code (http_get (structure_url (row_identifier row)))
              =? 200)%Z; [done|discriminate].
  - intros row' Hin' Hd' Hpath.
    destruct (downloads_compound _ _ _ Hd') as (r' & Hr' & Hi' & _).
    rewrite <- Hi' in Hpath |- *. f_equal. f_equal. f_equal.
    apply Hunique; [|done]. apply list_elem_of_omap. eauto.
Qed.

Lemma search_plant_files_saved_witness :
  files (search_plant Example.http_get Example.html_parser "Ocimum sanctum"
           "out/3d_structure" empty_world).2
    !! "out/3d_structure/IMPHY000001_3D.mol"
  = Some (Bytes "MOLFILE").
Proof.
  apply (search_plant_files_saved Example.http_get Example.html_parser
           "Ocimum sanctum" "out/3d_structure" empty_world Example.row1).
  - change (Example.row1 ∈ [Example.row1; Example.row2]). left.
  - reflexivity.
  - intros r' Hr' Hpath.
    change (r' ∈ [Example.row1; Example.row2]) in Hr'.
    apply elem_of_cons in Hr' as [->|Hr']; [reflexivity|].
    apply list_elem_of_singleton in Hr' as ->.
    vm_compute in Hpath. discriminate.
Defined.

(** X6.  The identifier and the name of every row that [search_plant]
    returns are trimmed: they neither start nor end with white space. *)
Theorem search_plant_trimmed (http_get : string → Response)
    (html_parser : string → list Soup.node) (plant_name folder : string)
    (w : World) :
  Forall (λ r, PyStr.head_is PyStr.is_space (identifier r) = false
               ∧ PyStr.last_is PyStr.is_space (identifier r) = false
               ∧ PyStr.head_is PyStr.is_space (phytochemical_name r) = false
               ∧ PyStr.last_is PyStr.is_space (phytochemical_name r) = false)
    (search_plant http_get html_parser plant_name folder w).1.
Proof.
  rewrite search_plant_run. cbv zeta. cbn [fst].
  apply Forall_forall. intros r Hr.
  apply list_elem_of_omap in Hr as (row & _ & Hrow).
  destruct (compound_of_fields _ _ _ _ Hrow) as (-> & -> & _).
  unfold row_identifier, row_name.
  destruct (PyStrFacts.strip_spec
              (Soup.text (nth 2 (Soup.find_all "td" row)
                            (Soup.NavigableString ""))))
    as (? & ? & _ & _ & _ & ? & ?).
  destruct (PyStrFacts.strip_spec
              (Soup.text (nth 3 (Soup.find_all "td" row)
                            (Soup.NavigableString ""))))
    as (? & ? & _ & _ & _ & ? & ?).
  done.
Qed.

(** X7.  Every row that [search_plant] returns records what the sites
    answered for it: its status is ["Downloaded"] when the structure URL of
    its identifier answers 200 and ["Not found"] otherwise, and its SMILES
    is the trimmed body of the PubChem answer for its CID when that answer
    is 200 and ["N/A"] otherwise. *)
Theorem search_plant_fields (http_get : string → Response)
    (html_parser : string → list Soup.node) (plant_name folder : string)
    (w : World) :
  Forall (λ r, structure_status r
               = (if (status_code (http_get (structure_url (identifier r)))
                      =? 200)%Z
                  then "Downloaded" else "Not found")
               ∧ ∃ c, cid r = Some c
                      ∧ cid_of http_get html_parser (identifier r) = Some c
                      ∧ smiles r
                        = (if (status_code (http_get (pubchem_url c))
                               =? 200)%Z
                           then PyStr.strip (text (http_get (pubchem_url c)))
                           else "N/A"))
    (search_plant http_get html_parser plant_name folder w).1.
Proof.
  rewrite search_plant_run. cbv zeta. cbn [fst].
  apply Forall_forall. intros r Hr.
  apply list_elem_of_omap in Hr as (row & _ & Hrow).
  destruct (compound_of_fields _ _ _ _ Hrow)
    as (Hi & _ & Hst & _ & c & Hc & Hcid & Hsm).
  rewrite Hi. split; [done|]. by exists c.
Qed.

(** ** More on the lookups *)

Lemma take_digits_split (s : string) :
  ∃ post, s = PyStr.take_digits s +:+ post
          ∧ PyStr.head_is PyStr.is_digit post = false.
Proof.
  induction s as [|a s (post & Hs & Hp)].
  - by exists "".
  - simpl. destruct (PyStr.is_digit a) eqn:Ha.
    + exists post. rewrite PyStrFacts.app_cons. by rewrite <- Hs.
    + exists (String a s). simpl. by rewrite Ha.
Qed.

Lemma match_cid_here_inv (s ds : string) :
  PyStr.match_cid_here s = Some ds →
  ∃ post, s = "CID:" +:+ ds +:+ post ∧ ds ≠ ""
          ∧ PyStr.all_chars PyStr.is_digit ds = true
          ∧ PyStr.head_is PyStr.is_digit post = false.
Proof.
  unfold PyStr.match_cid_here.
  destruct (PyStr.strip_prefix "CID:" s) as [rest|] eqn:Hp; [|done].
  apply PyStrFacts.strip_prefix_Some in Hp.
  destruct (take_digits_split rest) as (post & Hrest & Hpost).
  pose proof (take_digits_all rest) as Hall.
  destruct (PyStr.take_digits rest) as [|d ds'] eqn:Hd; [done|].
  intros [= <-]. exists post. by rewrite <- Hrest.
Qed.

Lemma match_cid_here_None (s : string) :
  PyStr.match_cid_here s = None → ¬ cid_match_at s "".
Proof.
  intros Hnone (d & rest & Hd & ->). unfold PyStr.match_cid_here in Hnone.
  rewrite PyStrFacts.app_nil, PyStrFacts.strip_prefix_app in Hnone.
  simpl in Hnone. by rewrite Hd in Hnone.
Qed.

(** What a successful search of [CID:(\d+)] tells about the text. *)
Lemma re_search_cid_inv (s ds : string) :
  PyStr.re_search_cid s = Some ds →
  ∃ pre post, s = pre +:+ "CID:" +:+ ds +:+ post ∧ ds ≠ ""
              ∧ PyStr.all_chars PyStr.is_digit ds = true
              ∧ PyStr.head_is PyStr.is_digit post = false
              ∧ ∀ pre', cid_match_at s pre' →
                        String.length pre ≤ String.length pre'.
Proof.
  induction s as [|a s IH]; rewrite PyStrFacts.re_search_cid_unfold.
  - done.
  - destruct (PyStr.match_cid_here (String a s)) as [x|] eqn:Hm.
    + intros [= ->].
      destruct (match_cid_here_inv _ _ Hm) as (post & Hs & Hne & Hd & Hp).
      exists "", post. split_and!; try done. intros pre' _. simpl. lia.
    + intros (pre & post & Hs & Hne & Hd & Hp & Hleft)%IH.
      exists (String a pre), post. split_and!; try done.
      * rewrite PyStrFacts.app_cons. by rewrite <- Hs.
      * intros pre' Hmatch. destruct pre' as [|a' pre'].
        -- by apply match_cid_here_None in Hm.
        -- destruct Hmatch as (d & rest & Hdg & Heq).
           rewrite PyStrFacts.app_cons in Heq. injection Heq as -> Heq.
           simpl. apply le_n_S, Hleft. by exists d, rest.
Qed.

(** X8.  A CID that [extract_cid] returns was read off the page: the detail
    page answered 200, one of its text nodes is the label, an anchor follows
    it, and the trimmed text of the first such anchor has its leftmost
    match of [CID:] and digits at the returned digit string, which is not
    empty and is not followed by a further digit. *)
Theorem extract_cid_sound (http_get : string → Response)
    (html_parser : string → list Soup.node) (identifier : string) (w : World)
    (ds : string) :
  let response := http_get (detailed_page_base +:+ identifier) in
  let soup := BeautifulSoup html_parser (content response) in
  (extract_cid http_get html_parser identifier w).1 = Some ds →
  status_code response = 200%Z
  ∧ Soup.NavigableString cid_label ∈ Soup.descendants soup
  ∧ ∃ sect cid_tag pre post,
      Soup.find_string cid_label soup = Some sect
      ∧ Soup.find_next "a" sect = Some cid_tag
      ∧ cid_tag ∈ sect ∧ Soup.is_tag "a" cid_tag = true
      ∧ PyStr.strip (Soup.text cid_tag) = pre +:+ "CID:" +:+ ds +:+ post
      ∧ ds ≠ "" ∧ PyStr.all_chars PyStr.is_digit ds = true
      ∧ PyStr.head_is PyStr.is_digit post = false
      ∧ ∀ pre', cid_match_at (PyStr.strip (Soup.text cid_tag)) pre' →
                String.length pre ≤ String.length pre'.
Proof.
  intros response soup. rewrite extract_cid_run. cbv zeta. cbn [fst].
  fold response. fold soup.
  destruct (status_code response =? 200)%Z eqn:Hst; [|done].
  apply Z.eqb_eq in Hst. simpl negb. cbv iota.
  destruct (Soup.find_string cid_label soup) as [sect|] eqn:Hsect; [|done].
  destruct (Soup.find_next "a" sect) as [cid_tag|] eqn:Htag; [|done].
  intros (pre & post & Hs & Hne & Hd & Hp & Hleft)%re_search_cid_inv.
  split; [done|]. split.
  - unfold Soup.find_string in Hsect. clear -Hsect.
    induction (Soup.descendants soup) as [|n l IH]; [done|].
    simpl in Hsect. destruct (Soup.is_string cid_label n) eqn:Hn.
    + destruct n as [s|]; [|done]. simpl in Hn.
      apply String.eqb_eq in Hn as ->. left.
    + right. by apply IH.
  - exists sect, cid_tag, pre, post. split_and!; try done.
    + apply List.find_some in Htag as [Hin _]. by apply list_elem_of_In.
    + by apply List.find_some in Htag as [_ ?].
Qed.

Lemma extract_cid_sound_witness :
  status_code (Example.http_get (detailed_page_base +:+ "IMPHY000003"))
  = 200%Z
  ∧ Soup.NavigableString cid_label
    ∈ Soup.descendants
        (BeautifulSoup Example.html_parser
           (content (Example.http_get
                       (detailed_page_base +:+ "IMPHY000003")))).
Proof.
  destruct (extract_cid_sound Example.http_get Example.html_parser
              "IMPHY000003" empty_world "678") as (Hst & Hlabel & _).
  - reflexivity.
  - split; [exact Hst|exact Hlabel].
Defined.

(** X9.  Whatever the sites answer, [extract_cid] and
    [get_smiles_from_pubchem] send one request, wait two seconds and leave
    the files alone; [download_structure] sends one request, does not wait,
    and changes no file but the one of the structure. *)
Theorem lookups_effects (http_get : string → Response)
    (html_parser : string → list Soup.node) (identifier c folder : string)
    (w : World) :
  (extract_cid http_get html_parser identifier w).2
  = mkWorld (files w)
      (trace w ++ [Get (detailed_page_base +:+ identifier); Sleep 2])
  ∧ (get_smiles_from_pubchem http_get c w).2
    = mkWorld (files w) (trace w ++ [Get (pubchem_url c); Sleep 2])
  ∧ trace (download_structure http_get identifier folder w).2
    = trace w ++ [Get (structure_url identifier)]
  ∧ ∀ p, p ≠ structure_path folder identifier →
         files (download_structure http_get identifier folder w).2 !! p
         = files w !! p.
Proof.
  rewrite extract_cid_run, get_smiles_from_pubchem_run,
    download_structure_run.
  split_and!; try done.
  - cbv zeta. by destruct (_ =? _)%Z.
  - intros p Hp. cbv zeta. destruct (_ =? _)%Z; [|done].
    by apply lookup_insert_ne.
Qed.

Lemma lookups_effects_witness :
  files (download_structure Example.http_get "IMPHY000001" "out"
           (mkWorld {["notes.txt" := Bytes "keep"]} [])).2 !! "notes.txt"
  = Some (Bytes "keep").
Proof.
  etrans.
  - apply (lookups_effects Example.http_get Example.html_parser
             "IMPHY000001" "12345" "out"). vm_compute. discriminate.
  - reflexivity.
Defined.

(** X10.  The listing URL never holds a space, whatever the plant name. *)
Theorem plant_page_url_no_space (plant_name : string) :
  PyStr.all_chars (λ a, negb (Ascii.eqb a " ")) (plant_page_url plant_name)
  = true.
Proof.
  unfold plant_page_url.
  assert (∀ s t, PyStr.all_chars (λ a, negb (Ascii.eqb a " ")) (s +:+ t)
                 = PyStr.all_chars (λ a, negb (Ascii.eqb a " ")) s
                   && PyStr.all_chars (λ a, negb (Ascii.eqb a " ")) t)
    as Happ.
  { intros s t. induction s as [|a s IH]; [done|].
    rewrite PyStrFacts.app_cons. simpl. rewrite IH. by rewrite andb_assoc. }
  rewrite Happ. apply andb_true_intro. split; [reflexivity|].
  induction plant_name as [|a s IH]; [done|]. simpl.
  destruct (Ascii.eqb a " ") eqn:Ha.
  - rewrite Happ, IH. reflexivity.
  - simpl. by rewrite Ha, IH.
Qed.

(** ** More on the report *)

(** X11.  In the report the Structure cell of a data row is filled green
    ([92D050]) when it reads ["Downloaded"] and red ([FF3300]) otherwise,
    and no other cell of the sheet is filled. *)
Theorem save_to_excel_fills (data : list CompoundRow) (file_path : string)
    (w : World) :
  ∃ ws, sheet_at (save_to_excel data file_path w).2 file_path = Some ws
  ∧ (∀ i row, data !! i = Some row →
       cell_fill <$> ws !! (i + 2, 6)
       = Some (Some (if String.eqb (structure_status row) "Downloaded"
                     then "92D050" else "FF3300")))
  ∧ (∀ r c cell, ws !! (r, c) = Some cell → is_Some (cell_fill cell) →
       c = 6 ∧ 2 ≤ r ≤ length data + 1).
Proof.
  destruct (report_written data file_path w) as (ws & _ & Hsheet & Hws).
  exists ws. split; [done|]. split.
  - intros i row Hrow. by rewrite Hws, (report_cell_data _ _ _ _ Hrow).
  - intros r c cell Hcell [f Hfill]. rewrite Hws in Hcell.
    destruct (report_cell_Some data r c) as [Hr|Hr]; [by eexists| |].
    + destruct (decide (r = 1)) as [->|Hr1].
      * unfold ReportSpec.report_cell in Hcell. simpl in Hcell.
        destruct c as [|j]; [done|]. simpl in Hcell.
        destruct (Report.columns !! j); simpl in Hcell; by simplify_eq.
      * split; [|lia].
        destruct (lookup_lt_is_Some_2 data (r - 2)) as [row Hrow]; [lia|].
        replace r with (r - 2 + 2) in Hcell by lia.
        rewrite (report_cell_data _ _ _ _ Hrow) in Hcell.
        destruct c as [|c]; [done|].
        do 5 (destruct c as [|c];
                [simpl in Hcell; injection Hcell as <-; simpl in Hfill;
                 discriminate|]).
        destruct c as [|c]; [done|].
        destruct c as [|c]; [|done]. simpl in Hcell.
        destruct (String.eqb (hyperlink row) ""); injection Hcell as <-;
          simpl in Hfill; discriminate.
    + assert (∃ k, k < 3 ∧ r = length data + 3 + k) as (k & Hk & ->)
        by (exists (r - (length data + 3)); lia).
      rewrite report_cell_summary_row in Hcell by done.
      destruct k as [|[|[|k]]]; try lia;
        destruct c as [|[|[|c]]]; simpl in Hcell; try done;
        injection Hcell as <-; simpl in Hfill; discriminate.
Qed.

Lemma save_to_excel_fills_witness :
  ∃ ws, sheet_at (save_to_excel Example.rows "out.xlsx" empty_world).2
          "out.xlsx" = Some ws
        ∧ cell_fill <$> ws !! (2, 6) = Some (Some "92D050")
        ∧ cell_fill <$> ws !! (3, 6) = Some (Some "FF3300").
Proof.
  destruct (save_to_excel_fills Example.rows "out.xlsx" empty_world)
    as (ws & Hsheet & Hfill & _).
  exists ws. split; [exact Hsheet|]. split.
  - exact (Hfill 0 Example.row1 eq_refl).
  - exact (Hfill 1 Example.row2 eq_refl).
Defined.

(** X12.  [save_to_excel] sends no request and touches no file but the
    report; the sheet it leaves at [file_path] depends on the rows alone,
    not on what was at [file_path] before nor on the rest of the world. *)
Theorem save_to_excel_effect (data : list CompoundRow) (file_path : string)
    (w : World) :
  trace (save_to_excel data file_path w).2 = trace w
  ∧ (∀ p, p ≠ file_path →
       files (save_to_excel data file_path w).2 !! p = files w !! p)
  ∧ (∀ w', sheet_at (save_to_excel data file_path w').2 file_path
           = sheet_at (save_to_excel data file_path w).2 file_path).
Proof.
  destruct (ReportFacts.save_to_excel_run data file_path w)
    as (ws & Hrun & Hws).
  rewrite Hrun. cbn [fst snd files trace]. split_and!; try done.
  - intros p Hp. by apply lookup_insert_ne.
  - intros w'.
    destruct (ReportFacts.save_to_excel_run data file_path w')
      as (ws' & -> & Hws').
    unfold sheet_at. cbn [snd files]. rewrite !lookup_insert_eq. f_equal.
    apply map_eq. intros [r c]. by rewrite Hws, Hws'.
Qed.

Lemma save_to_excel_effect_witness :
  files (save_to_excel Example.rows "out.xlsx"
           (mkWorld {["notes.txt" := Bytes "keep"]} [])).2 !! "notes.txt"
  = Some (Bytes "keep").
Proof.
  etrans.
  - apply (save_to_excel_effect Example.rows "out.xlsx"
             (mkWorld {["notes.txt" := Bytes "keep"]} [])).
    discriminate.
  - reflexivity.
Defined.

(** ** The entry point *)

Module MainFacts.
Import Main.

Lemma all_chars_join_if (p : ascii → bool) (s : string) :
  PyStr.all_chars p (join_if p s) = true.
Proof.
  induction s as [|a s IH]; [done|]. simpl.
  destruct (p a) eqn:Ha; [|done]. simpl. by rewrite Ha.
Qed.

Lemma join_if_id (p : ascii → bool) (s : string) :
  PyStr.all_chars p s = true → join_if p s = s.
Proof.
  induction s as [|a s IH]; [done|]. simpl.
  intros [Ha Hs]%andb_prop. by rewrite Ha, IH.
Qed.

Lemma all_chars_rstrip (p : ascii → bool) (s : string) :
  PyStr.all_chars p s = true → PyStr.all_chars p (PyStr.rstrip s) = true.
Proof.
  induction s as [|a s IH]; [done|]. simpl.
  intros [Ha Hs]%andb_prop. specialize (IH Hs).
  destruct (PyStr.rstrip s) as [|b r].
  - destruct (PyStr.is_space a); [done|]. simpl. by rewrite Ha.
  - simpl in *. by rewrite Ha.
Qed.

Lemma rstrip_id (s : string) :
  PyStr.last_is PyStr.is_space s = false → PyStr.rstrip s = s.
Proof.
  induction s as [|a s IH]; [done|]. destruct s as [|b s].
  - simpl. by intros ->.
  - intros Hlast. change (PyStr.last_is PyStr.is_space (String b s) = false)
      in Hlast.
    change (PyStr.rstrip (String a (String b s)))
      with (match PyStr.rstrip (String b s) with
            | EmptyString =>
                if PyStr.is_space a then EmptyString else String a EmptyString
            | r => String a r
            end).
    by rewrite (IH Hlast).
Qed.


Lemma all_chars_impl (q p : ascii → bool) (s : string) :
  (∀ a, q a = true → p a = true) →
  PyStr.all_chars q s = true → PyStr.all_chars p s = true.
Proof.
  intros Hqp. induction s as [|a s IH]; [done|]. simpl.
  intros [Ha Hs]%andb_prop. by rewrite (Hqp _ Ha), IH.
Qed.

Lemma kept_not_slash (a : ascii) : kept a = true → Ascii.eqb "/" a = false.
Proof.
  intros Ha. destruct (Ascii.eqb_spec "/" a) as [<-|]; [|done].
  vm_compute in Ha. discriminate.
Qed.





Lemma safe_name_kept (plant_name : string) :
  PyStr.all_chars kept (safe_name plant_name) = true.
Proof. apply all_chars_rstrip, all_chars_join_if. Qed.


End MainFacts.

(** X13.  The name that [main] uses for the folder and the report is made of
    letters, digits, spaces and underscores only, has no white space at its
    end and no path separator anywhere; a name that is already of this form
    is used as it is, so that cleaning a name twice changes nothing. *)
Theorem safe_name_spec (plant_name : string) :
  let safe := Main.safe_name plant_name in
  PyStr.all_chars Main.kept safe = true
  ∧ PyStr.last_is PyStr.is_space safe = false
  ∧ PyStr.all_chars (λ a, negb (Ascii.eqb "/" a)) safe = true
  ∧ Main.safe_name safe = safe
  ∧ (PyStr.all_chars Main.kept plant_name = true →
     PyStr.last_is PyStr.is_space plant_name = false →
     safe = plant_name).
Proof.
  intros safe.
  assert (PyStr.last_is PyStr.is_space safe = false) as Hlast.
  { subst safe. unfold Main.safe_name.
    by destruct (PyStrFacts.rstrip_spec
                   (Main.join_if Main.kept plant_name)) as (? & _ & _ & ?). }
  assert (∀ s, PyStr.all_chars Main.kept s = true →
               PyStr.last_is PyStr.is_space s = false →
               Main.safe_name s = s) as Hid.
  { intros s Hs Hl. unfold Main.safe_name.
    rewrite MainFacts.join_if_id by done. by apply MainFacts.rstrip_id. }
  split_and!.
  - apply MainFacts.safe_name_kept.
  - done.
  - apply (MainFacts.all_chars_impl Main.kept);
      [|apply MainFacts.safe_name_kept].
    intros a Ha. by rewrite MainFacts.kept_not_slash.
  - apply Hid; [apply MainFacts.safe_name_kept|done].
  - apply Hid.
Qed.

Lemma safe_name_spec_witness :
  Main.safe_name "Ocimum_sanctum 2" = "Ocimum_sanctum 2"
  ∧ Main.safe_name "../Ocimum sanctum (L.)  " = "Ocimum sanctum L".
Proof.
  split.
  - apply (safe_name_spec "Ocimum_sanctum 2"); reflexivity.
  - reflexivity.
Defined.

Section MainRuns.
Variable http_get : string → Response.
Variable html_parser : string → list Soup.node.

Lemma ask_save_location_skip (existing : gset string)
    (rejected lines : list string) :
  Forall (λ l, l ∉ existing) rejected →
  Main.ask_save_location existing (rejected ++ lines)
  = Main.ask_save_location existing lines.
Proof.
  induction 1 as [|l rejected Hl _ IH]; [done|]. simpl.
  by rewrite bool_decide_eq_false_2.
Qed.

Lemma ask_save_location_none (existing : gset string) (lines : list string) :
  Forall (λ l, l ∉ existing) lines →
  Main.ask_save_location existing lines = None.
Proof.
  intros H. rewrite <- (app_nil_r lines).
  by rewrite ask_save_location_skip.
Qed.

(** A search without rows has written no file. *)
Lemma search_plant_empty_files (plant_name folder : string) (w : World) :
  (search_plant http_get html_parser plant_name folder w).1 = [] →
  files (search_plant http_get html_parser plant_name folder w).2 = files w.
Proof.
  rewrite search_plant_run. cbv zeta. cbn [fst snd files]. intros Hnil.
  apply map_eq. intros p. apply foldl_row_files_other.
  intros row Hin Hd.
  destruct (downloads_compound _ _ _ Hd) as (r & Hr & _).
  assert (r ∈ @nil CompoundRow) as Hfalse; [|by apply elem_of_nil in Hfalse].
  rewrite <- Hnil. apply list_elem_of_omap. eauto.
Qed.

(** [main], once a directory and a plant name have been read. *)
Lemma main_run (save_location plant_name : string) (lines : list string)
    (existing : gset string) (w : World) :
  save_location ∈ existing →
  let safe := Main.safe_name plant_name in
  let plant_folder := os_path_join save_location safe in
  let structure_folder := os_path_join plant_folder "3d_structure" in
  let file_path := os_path_join plant_folder (safe +:+ ".xlsx") in
  let found := search_plant http_get html_parser plant_name structure_folder w in
  let env' := Main.mkEnv lines ({[structure_folder]} ∪ ({[plant_folder]} ∪ existing)) in
  Main.main http_get html_parser
    (Main.mkEnv (save_location :: plant_name :: lines) existing) w
  = match found.1 with
    | [] => (Main.NoData, env', found.2)
    | _ :: _ =>
        let saved := save_to_excel found.1 file_path found.2 in
        (match saved.1 with
         | Some _ => Main.Saved file_path
         | None => Main.SaveError
         end, env', saved.2)
    end.
Proof.
  intros Hdir safe plant_folder structure_folder file_path found env'.
  unfold Main.main. cbn [Main.dirs Main.stdin Main.ask_save_location].
  rewrite bool_decide_eq_true_2 by done. cbv zeta.
  fold safe. fold plant_folder. fold structure_folder. fold file_path.
  fold found. destruct found as [[|r rows] w1]; [done|]. cbn [fst snd].
  by destruct (save_to_excel (r :: rows) file_path w1) as [[[]|] w2].
Qed.

End MainRuns.

(** X14.  [main] asks for the folder again until a line names a directory:
    the lines it rejects have no effect on the run.  When the input ends
    before a directory and a plant name have both been read, [main] stops
    with [EOFError] and nothing has happened: no request, no file, no
    folder. *)
Theorem main_prompts (http_get : string → Response)
    (html_parser : string → list Soup.node) (existing : gset string)
    (rejected lines : list string) (w : World) :
  Forall (λ l, l ∉ existing) rejected →
  Main.main http_get html_parser (Main.mkEnv (rejected ++ lines) existing) w
  = Main.main http_get html_parser (Main.mkEnv lines existing) w
  ∧ Main.main http_get html_parser (Main.mkEnv rejected existing) w
    = (Main.EOFError, Main.mkEnv [] existing, w)
  ∧ (∀ save_location, save_location ∈ existing →
       Main.main http_get html_parser
         (Main.mkEnv (rejected ++ [save_location]) existing) w
       = (Main.EOFError, Main.mkEnv [] existing, w)).
Proof.
  intros Hrej. split_and!.
  - unfold Main.main. cbn [Main.dirs Main.stdin].
    by rewrite ask_save_location_skip.
  - unfold Main.main. cbn [Main.dirs Main.stdin].
    by rewrite ask_save_location_none.
  - intros save_location Hdir. unfold Main.main. cbn [Main.dirs Main.stdin].
    rewrite ask_save_location_skip by done. simpl.
    by rewrite bool_decide_eq_true_2.
Qed.

Lemma main_prompts_witness :
  Main.main Example.http_get Example.html_parser
    (Main.mkEnv ["/nowhere"; "/tmp/missing"] {["/data"]}) empty_world
  = (Main.EOFError, Main.mkEnv [] {["/data"]}, empty_world).
Proof.
  apply (main_prompts Example.http_get Example.html_parser {["/data"]}
           ["/nowhere"; "/tmp/missing"] [] empty_world).
  repeat constructor; set_solver.
Defined.

(** X15.  When the search finds no compound, [main] ends with its "no data"
    message: the two folders have been made, and no file at all has been
    written, neither a report nor a structure. *)
Theorem main_no_data (http_get : string → Response)
    (html_parser : string → list Soup.node)
    (save_location plant_name : string) (lines : list string)
    (existing : gset string) (w : World) :
  let plant_folder := os_path_join save_location (Main.safe_name plant_name) in
  let structure_folder := os_path_join plant_folder "3d_structure" in
  let found := search_plant http_get html_parser plant_name structure_folder w in
  let run := Main.main http_get html_parser
               (Main.mkEnv (save_location :: plant_name :: lines) existing) w in
  save_location ∈ existing →
  found.1 = [] →
  run.1.1 = Main.NoData
  ∧ run.1.2
    = Main.mkEnv lines ({[structure_folder]} ∪ ({[plant_folder]} ∪ existing))
  ∧ run.2 = found.2
  ∧ files run.2 = files w.
Proof.
  intros plant_folder structure_folder found run Hdir Hnil. subst run.
  rewrite main_run by done. cbv zeta.
  fold plant_folder. fold structure_folder. fold found. rewrite Hnil.
  split_and!; try done. cbn [snd]. by apply search_plant_empty_files.
Qed.

Lemma main_no_data_witness :
  Main.main Example2.http_get Example2.html_parser
    (Main.mkEnv ["/data"; "Thymus vulgaris"] {["/data"]}) empty_world
  = (Main.NoData,
     Main.mkEnv []
       ({["/data/Thymus vulgaris/3d_structure"]}
        ∪ ({["/data/Thymus vulgaris"]} ∪ {["/data"]})),
     mkWorld ∅ [Get (plant_page_base +:+ "Thymus%20vulgaris"); Sleep 2]).
Proof.
  destruct (main_no_data Example2.http_get Example2.html_parser "/data"
              "Thymus vulgaris" [] {["/data"]} empty_world)
    as (Hout & Henv & Hw & _).
  - set_solver.
  - reflexivity.
  - destruct (Main.main _ _ _ _) as [[out env] w'].
    cbn [fst snd] in Hout, Henv, Hw. by rewrite Hout, Henv, Hw.
Defined.


